(** * YMJ documents: the embed, search and validate tools

    A shallow embedding of [tools/ymj_embed.py], [tools/ymj_search.py] and
    [tools/ymj_validate.py].

    - Python [str] is [string]; a character is a code point below 256.
    - Python values read from YAML or JSON are [pyval]; [None] is [PNone].
    - A call that may raise returns an [outcome]; the exception classes the
      three tools can meet are listed in [exn].
    - PyYAML, [json], numpy's array constructor, pathlib and the embedding
      model are libraries outside the repository: they are the variables
      of [Tools.Libraries].
    - Floating point numbers are the kernel's binary64 floats.
    - File contents, printed text, provider calls and file writes are
      threaded through a [world]. *)

From Stdlib Require Import Bool Arith ZArith Lia List Ascii String.
From Stdlib Require Import Decimal DecimalString.
From Stdlib Require Import Permutation Sorted.
From Stdlib Require Import Floats.
Import ListNotations.

Set Warnings "-register-all".


Open Scope list_scope.
Open Scope string_scope.

(** ** Python strings *)

Module PyStr.

(** The line feed, written [\n] in the sources. *)
Definition nl : string := String "010"%char EmptyString.

(** [s.startswith(p)] *)
Fixpoint startswith (s p : string) {struct p} : bool :=
  match p with
  | EmptyString => true
  | String c p' =>
      match s with
      | EmptyString => false
      | String d s' => Ascii.eqb c d && startswith s' p'
      end
  end.

(** [s[n:]] for [0 <= n] *)
Fixpoint drop (n : nat) (s : string) : string :=
  match n with
  | O => s
  | S n' => match s with EmptyString => EmptyString | String _ s' => drop n' s' end
  end.

(** [s[:n]] for [0 <= n] *)
Fixpoint take (n : nat) (s : string) : string :=
  match n with
  | O => EmptyString
  | S n' => match s with EmptyString => EmptyString | String c s' => String c (take n' s') end
  end.

(** [s[a:b]] for [0 <= a] and [0 <= b] *)
Definition slice (a b : nat) (s : string) : string := take (b - a) (drop a s).

(** Offset of the first occurrence of [sub] in [s]. *)
Fixpoint index_of (sub s : string) : option nat :=
  if startswith s sub then Some O
  else match s with
       | EmptyString => None
       | String _ s' => option_map S (index_of sub s')
       end.

(** [s.find(sub, start)]: the lowest index at or after [start] where [sub]
    occurs, [-1] when there is none. *)
Definition find (s sub : string) (start : nat) : Z :=
  if Nat.ltb (String.length s) start then (-1)%Z
  else match index_of sub (drop start s) with
       | Some i => Z.of_nat (start + i)
       | None => (-1)%Z
       end.

(** [sub in s] *)
Definition occurs (sub s : string) : bool :=
  match index_of sub s with Some _ => true | None => false end.

(** The characters [str.strip()] removes and the pattern class [\s] matches:
    Python's Unicode white space below code point 256. *)
Definition is_space (c : ascii) : bool :=
  let n := nat_of_ascii c in
  (Nat.leb 9 n && Nat.leb n 13) || (Nat.leb 28 n && Nat.leb n 32)
  || Nat.eqb n 133 || Nat.eqb n 160.

Fixpoint lstrip (s : string) : string :=
  match s with
  | EmptyString => EmptyString
  | String c s' => if is_space c then lstrip s' else s
  end.

Fixpoint rstrip (s : string) : string :=
  match s with
  | EmptyString => EmptyString
  | String c s' =>
      match rstrip s' with
      | EmptyString => if is_space c then EmptyString else String c EmptyString
      | r => String c r
      end
  end.

(** [s.strip()] *)
Definition strip (s : string) : string := rstrip (lstrip s).

(** Whether [c] occurs in [p]. *)
Fixpoint has_char (c : ascii) (p : string) : bool :=
  match p with
  | EmptyString => false
  | String d p' => Ascii.eqb c d || has_char c p'
  end.

(** A text that begins with a character other than white space. *)
Definition solid (s : string) : bool :=
  match s with
  | String c _ => negb (is_space c)
  | EmptyString => false
  end.

(** [str(n)] for a natural number *)
Definition str_of_nat (n : nat) : string := NilEmpty.string_of_uint (Nat.to_uint n).

End PyStr.
Import PyStr.

(** ** The footer pattern

    [re.search(r'```json\s*\n(.*?)\n```', text, re.DOTALL)]: the leftmost
    position where the pattern matches, under Python's backtracking order:
    [\s*] takes the longest run of white space first and gives characters
    back one at a time, [(.*?)] takes the shortest text that lets the
    closing fence follow. *)

Module Footer.

Definition fence_open : string := "```json".
Definition fence_close : string := nl ++ "```".

(** Length of the white space run at the head of [s]. *)
Fixpoint space_run (s : string) : nat :=
  match s with
  | String c s' => if is_space c then S (space_run s') else O
  | EmptyString => O
  end.

(** The rest of the pattern, [\n(.*?)\n```], tried right after [k]
    characters of [t] were given to [\s*]: the captured group. *)
Definition after_spaces (k : nat) (t : string) : option string :=
  match drop k t with
  | String c body =>
      if Ascii.eqb c "010"%char
      then option_map (fun j => take j body) (index_of fence_close body)
      else None
  | EmptyString => None
  end.

(** [\s*] giving back: [k], then [k-1], ..., then [0] characters. *)
Fixpoint backtrack (k : nat) (t : string) : option string :=
  match after_spaces k t with
  | Some g => Some g
  | None => match k with O => None | S k' => backtrack k' t end
  end.

(** A match that starts exactly at the head of [s]: its group 1. *)
Definition match_here (s : string) : option string :=
  if startswith s fence_open
  then let t := drop (String.length fence_open) s in backtrack (space_run t) t
  else None.

(** [re.search]: [(m.start(), m.group(1))] of the leftmost match. *)
Fixpoint re_search (s : string) : option (nat * string) :=
  match match_here s with
  | Some g => Some (O, g)
  | None =>
      match s with
      | EmptyString => None
      | String _ s' =>
          match re_search s' with
          | Some (i, g) => Some (S i, g)
          | None => None
          end
      end
  end.

(** A match found [n] characters further right. *)
Definition shift (n : nat) (r : option (nat * string)) : option (nat * string) :=
  match r with
  | Some (i, g) => Some (n + i, g)
  | None => None
  end.

End Footer.
Import Footer.

(** ** Python values and exceptions *)

Inductive pyval : Type :=
| PNone
| PBool (b : bool)
| PInt (z : Z)
| PFloat (x : float)
| PStr (s : string)
| PList (l : list pyval)
| PDict (d : list (pyval * pyval)).

(** The exception classes met by the tools, each with its message. *)
Inductive exn : Type :=
| ValueError (msg : string)
| JSONDecodeError (msg : string)
| YAMLError (msg : string)
| TypeError (msg : string)
| AttributeError (msg : string)
| KeyError (msg : string)
| OSError (msg : string)
| RuntimeError (msg : string).

(** [str(e)] *)
Definition exn_msg (e : exn) : string :=
  match e with
  | ValueError m | JSONDecodeError m | YAMLError m | TypeError m
  | AttributeError m | KeyError m | OSError m | RuntimeError m => m
  end.

(** [except ValueError]: [json.JSONDecodeError] is a subclass of
    [ValueError]; [yaml.YAMLError] is not. *)
Definition is_ValueError (e : exn) : bool :=
  match e with
  | ValueError _ | JSONDecodeError _ => true
  | _ => false
  end.

(** [except yaml.YAMLError] *)
Definition is_YAMLError (e : exn) : bool :=
  match e with YAMLError _ => true | _ => false end.

(** [except json.JSONDecodeError] *)
Definition is_JSONDecodeError (e : exn) : bool :=
  match e with JSONDecodeError _ => true | _ => false end.

Inductive outcome (A : Type) : Type :=
| Ok (a : A)
| Raise (e : exn).
Arguments Ok {A} a.
Arguments Raise {A} e.

Definition obind {A B : Type} (o : outcome A) (k : A -> outcome B) : outcome B :=
  match o with
  | Ok a => k a
  | Raise e => Raise e
  end.

Module PyVal.

(** Truth value of an object, as [if] and [and] test it. The float test
    is [x != 0.0]. *)
Definition truthy (v : pyval) : bool :=
  match v with
  | PNone => false
  | PBool b => b
  | PInt z => negb (z =? 0)%Z
  | PFloat x => negb (PrimFloat.eqb x 0%float)
  | PStr s => negb (String.eqb s EmptyString)
  | PList l => match l with [] => false | _ => true end
  | PDict d => match d with [] => false | _ => true end
  end.

(** [k == key] for a string [key] *)
Definition is_key (key : string) (k : pyval) : bool :=
  match k with
  | PStr s => String.eqb key s
  | _ => false
  end.

(** Dictionary lookup by a string key. *)
Fixpoint lookup (key : string) (d : list (pyval * pyval)) : option pyval :=
  match d with
  | [] => None
  | (k, v) :: d' => if is_key key k then Some v else lookup key d'
  end.

(** [key in v] *)
Definition contains (key : string) (v : pyval) : outcome bool :=
  match v with
  | PDict d => Ok (match lookup key d with Some _ => true | None => false end)
  | PList l => Ok (existsb (is_key key) l)
  | PStr s => Ok (occurs key s)
  | _ => Raise (TypeError "argument is not iterable")
  end.

(** [v[key]] *)
Definition getitem (v : pyval) (key : string) : outcome pyval :=
  match v with
  | PDict d => match lookup key d with
               | Some x => Ok x
               | None => Raise (KeyError key)
               end
  | PList _ | PStr _ => Raise (TypeError "indices must be integers")
  | _ => Raise (TypeError "object is not subscriptable")
  end.

(** [v.get(key, default)] *)
Definition get (v : pyval) (key : string) (default : pyval) : outcome pyval :=
  match v with
  | PDict d => Ok (match lookup key d with Some x => x | None => default end)
  | _ => Raise (AttributeError "object has no attribute 'get'")
  end.

(** [isinstance(v, dict)] *)
Definition is_dict (v : pyval) : bool :=
  match v with PDict _ => true | _ => false end.

End PyVal.
Import PyVal.

(** ** Paths, the world and effects *)

(** A [pathlib.Path], by what the tools read of it: [str(path)],
    [path.stem] and [path.suffix]. *)
Record Path : Type := mkPath {
  path_str : string;
  path_stem : string;
  path_suffix : string
}.

(** The state the tools act on. [files] maps [str(path)] to what
    [read_text] gives for it (its text, or the exception raised);
    [provider_calls] lists the texts sent to the embedding model and
    [writes] the [write_text] calls, both oldest first. *)
Record world : Type := mkWorld {
  files : list (string * outcome string);
  stdout : string;
  stderr : string;
  provider_calls : list string;
  writes : list (string * string)
}.

(** Effectful code: a state transformer that may raise. *)
Definition M (A : Type) : Type := world -> outcome A * world.

Definition ret {A : Type} (a : A) : M A := fun w => (Ok a, w).

Definition raise {A : Type} (e : exn) : M A := fun w => (Raise e, w).

Definition bind {A B : Type} (m : M A) (k : A -> M B) : M B :=
  fun w => match m w with
           | (Ok a, w') => k a w'
           | (Raise e, w') => (Raise e, w')
           end.

Definition lift {A : Type} (o : outcome A) : M A := fun w => (o, w).

Notation "x <- m ;; k" := (bind m (fun x => k))
  (at level 61, m at next level, right associativity).
Notation "m ;;; k" := (bind m (fun _ => k))
  (at level 61, right associativity).

Module IO.

Fixpoint assoc {V : Type} (key : string) (l : list (string * V)) : option V :=
  match l with
  | [] => None
  | (k, v) :: l' => if String.eqb key k then Some v else assoc key l'
  end.

Fixpoint store {V : Type} (key : string) (v : V) (l : list (string * V)) : list (string * V) :=
  match l with
  | [] => [(key, v)]
  | (k, v') :: l' => if String.eqb key k then (k, v) :: l' else (k, v') :: store key v l'
  end.

(** [path.read_text(encoding="utf-8")] *)
Definition read (w : world) (path : Path) : outcome string :=
  match assoc (path_str path) (files w) with
  | Some r => r
  | None => Raise (OSError "No such file or directory")
  end.

Definition read_text (path : Path) : M string := fun w => (read w path, w).

(** The world after [text] was stored under [path] by [write_text]. *)
Definition wrote (path : Path) (text : string) (w : world) : world :=
  mkWorld (store (path_str path) (Ok text) (files w)) (stdout w) (stderr w)
          (provider_calls w) (writes w ++ [(path_str path, text)])%list.

(** The world after [text] went to standard output. *)
Definition said (text : string) (w : world) : world :=
  mkWorld (files w) (stdout w ++ text) (stderr w) (provider_calls w) (writes w).

(** The world after [text] went to standard error. *)
Definition complained (text : string) (w : world) : world :=
  mkWorld (files w) (stdout w) (stderr w ++ text) (provider_calls w) (writes w).

(** [path.write_text(text, encoding="utf-8")], for a write that goes
    through: the file then holds [text]. A write that raises or is cut
    short after truncating the file is not represented; what is proved of
    a call that writes is proved of a call whose write returned. *)
Definition write_text (path : Path) (text : string) : M unit :=
  fun w => (Ok tt, wrote path text w).

(** [print(text, end=ending)] *)
Definition print_end (text ending : string) : M unit :=
  fun w => (Ok tt, said (text ++ ending) w).

(** [print(text)] *)
Definition print (text : string) : M unit := print_end text nl.

(** [print(text, file=sys.stderr)] *)
Definition eprint (text : string) : M unit :=
  fun w => (Ok tt, complained (text ++ nl) w).

(** The world after the embedding model was asked for [text]. *)
Definition provider_called (text : string) (w : world) : world :=
  mkWorld (files w) (stdout w) (stderr w) (provider_calls w ++ [text])%list (writes w).

(** [path.suffix == ".ymj"] *)
Definition is_ymj (path : Path) : bool := String.eqb (path_suffix path) ".ymj".

(** Projections of a world built by the operations above. *)
Ltac world_fields :=
  cbn [fst snd files writes provider_calls stdout stderr
       said complained wrote provider_called].

(** Closes a goal that compares two runs which differ at most by one
    more entry at the end of the result. *)
Ltac mode_free :=
  let H := fresh in
  intros H;
  first [ discriminate H
        | inversion H; subst; eexists; split;
          [ reflexivity
          | first [ left; reflexivity | right; eexists; reflexivity ] ] ].

Ltac world_fields_in H :=
  cbn [fst snd files writes provider_calls stdout stderr
       said complained wrote provider_called] in H.

End IO.
Import IO.

(** ** Vectors of floats *)

Module Vec.

(** Products of the components, pairwise, up to the shorter length. *)
Fixpoint products (a b : list float) : list float :=
  match a, b with
  | x :: a', y :: b' => PrimFloat.mul x y :: products a' b'
  | _, _ => []
  end.

(** [np.dot(a, b)] for one-dimensional arrays: the products are added
    from the left, starting from zero; arrays of different lengths are
    refused. NumPy may add the products in another order and the query
    vector is of single precision, so a score can differ from this sum in
    its last bits; nothing below depends on the order of the sum. *)
Definition dot (a b : list float) : outcome float :=
  if Nat.eqb (List.length a) (List.length b)
  then Ok (fold_left PrimFloat.add (products a b) 0%float)
  else Raise (ValueError "shapes not aligned").

(** [np.linalg.norm(a)]: the square root of [dot(a, a)]. *)
Definition norm (a : list float) : float :=
  PrimFloat.sqrt (fold_left PrimFloat.add (products a a) 0%float).

(** [l.append(x)] *)
Definition appended {A : Type} (l : list A) (x : A) : list A := (l ++ [x])%list.

(** [l.sort(key=key)]: a stable sort that compares keys with [<] only.
    On keys without NaN every such sort gives the same list; with a NaN
    among the keys the order depends on the comparisons made, and this
    insertion sort need not agree with [list.sort] then. *)
Fixpoint insert_by {A : Type} (key : A -> float) (x : A) (l : list A) : list A :=
  match l with
  | [] => [x]
  | y :: l' => if PrimFloat.ltb (key y) (key x) then y :: insert_by key x l' else x :: l
  end.

Fixpoint sort_by {A : Type} (key : A -> float) (l : list A) : list A :=
  match l with
  | [] => []
  | x :: l' => insert_by key x (sort_by key l')
  end.

(** [l[:k]] for any integer [k]: a negative [k] counts from the end. *)
Definition upto {A : Type} (k : Z) (l : list A) : list A :=
  if (k <? 0)%Z then firstn (List.length l - Z.to_nat (- k)) l
  else firstn (Z.to_nat k) l.

End Vec.
Import Vec.

(** ** The tools *)

Module Tools.
Section Libraries.

(** [yaml.safe_load] *)
Variable yaml_safe_load : string -> outcome pyval.
(** [yaml.dump(data, default_flow_style=flow)]; [flow] is [None] where the
    keyword is not passed. *)
Variable yaml_dump : pyval -> option bool -> string.
(** [json.loads] *)
Variable json_loads : string -> outcome pyval.
(** [json.dumps(obj, indent=indent)], on the values of [pyval]: these are
    all values JSON has, so the call returns. A header value outside
    them (a date read by YAML) makes [json.dumps] raise [TypeError]; such
    headers are not represented. *)
Variable json_dumps : pyval -> nat -> string.
(** The fastembed model [nomic-ai/nomic-embed-text-v1.5] applied to one
    text; the flag selects the CUDA execution provider. *)
Variable text_embedding : string -> bool -> outcome (list float).
(** [np.array] on a decoded footer value. *)
Variable np_array : pyval -> outcome (list float).
(** [directory.rglob("*.ymj")], in the order the walk yields the paths. *)
Variable rglob : string -> list Path.
(** The format [{score:.3f}]. *)
Variable format_score : float -> string.

(** *** ymj_embed.py *)

(** [parse_ymj(content)]: header, markdown and footer ([PNone] when the
    text holds no footer block). *)
Definition parse_ymj (content : string) : outcome (pyval * string * pyval) :=
  if negb (startswith content "---") then Raise (ValueError "Missing YAML header")
  else
    let header_end := find content "---" 3 in
    if (header_end =? -1)%Z then Raise (ValueError "Unclosed YAML header")
    else
      let header_end := Z.to_nat header_end in
      let yaml_content := strip (slice 3 header_end content) in
      obind (yaml_safe_load yaml_content) (fun header =>
      let rest := drop (header_end + 3) content in
      match re_search rest with
      | Some (start, group1) =>
          obind (json_loads group1) (fun footer =>
          Ok (header, strip (take start rest), footer))
      | None => Ok (header, strip rest, PNone)
      end).

(** [embed_text(text, use_gpu)] *)
Definition embed_text (text : string) (use_gpu : bool) : M (list float) :=
  fun w => (text_embedding text use_gpu, provider_called text w).

(** The test of line 75,
    [footer and "index" in footer and "embedding" in footer["index"] and not force],
    operand by operand from the left. *)
Definition already_embedded (footer : pyval) (force : bool) : outcome bool :=
  if negb (truthy footer) then Ok false
  else
    obind (contains "index" footer) (fun has_index =>
    if negb has_index then Ok false
    else
      obind (getitem footer "index") (fun index =>
      obind (contains "embedding" index) (fun has_embedding =>
      if negb has_embedding then Ok false else Ok (negb force)))).

(** The footer written by [process_file]. *)
Definition new_footer (tags title : pyval) (embedding : list float) : pyval :=
  PDict [ (PStr "schema", PInt 1);
          (PStr "index", PDict [ (PStr "tags", tags);
                                 (PStr "title", title);
                                 (PStr "embedding", PList (map PFloat embedding)) ]) ].

(** The text written by [process_file] (lines 96 to 99). *)
Definition rebuild (header : pyval) (markdown : string) (footer : pyval) : string :=
  let yaml_section := "---" ++ nl ++ yaml_dump header (Some false) ++ "---" ++ nl in
  let json_section := nl ++ "```json" ++ nl ++ json_dumps footer 2 ++ nl ++ "```" ++ nl in
  yaml_section ++ nl ++ markdown ++ json_section.

(** [process_file(path, use_gpu, force)] *)
Definition process_file (path : Path) (use_gpu force : bool) : M bool :=
  content <- read_text path ;;
  match parse_ymj content with
  | Raise e =>
      if is_ValueError e
      then eprint ("Error parsing " ++ path_str path ++ ": " ++ exn_msg e) ;;; ret false
      else raise e
  | Ok (header, markdown, footer) =>
      skip <- lift (already_embedded footer force) ;;
      if skip : bool
      then print ("Skipping " ++ path_str path ++ " (already embedded, use --force to re-embed)") ;;;
           ret true
      else
        let full_text := yaml_dump header None ++ nl ++ markdown in
        print_end ("Embedding " ++ path_str path ++ "...") " " ;;;
        embedding <- embed_text full_text use_gpu ;;
        tags <- lift (get header "tags" (PList [])) ;;
        title <- lift (get header "title" (PStr (path_stem path))) ;;
        write_text path (rebuild header markdown (new_footer tags title embedding)) ;;;
        print "done" ;;;
        ret true
  end.

(** The loop of [main] over [args.files], with the running count. *)
Fixpoint batch (paths : list Path) (use_gpu force : bool) (success : nat) : M nat :=
  match paths with
  | [] => ret success
  | path :: paths' =>
      if negb (String.eqb (path_suffix path) ".ymj")
      then print ("Skipping " ++ path_str path ++ " (not a .ymj file)") ;;;
           batch paths' use_gpu force success
      else
        ok <- process_file path use_gpu force ;;
        batch paths' use_gpu force (if ok : bool then S success else success)
  end.

(** [main()] of ymj_embed.py, after the arguments were parsed. *)
Definition embed_main (paths : list Path) (use_gpu force : bool) : M unit :=
  success <- batch paths use_gpu force 0 ;;
  print (nl ++ "Processed " ++ str_of_nat success ++ "/"
            ++ str_of_nat (List.length paths) ++ " files").

(** *** ymj_search.py *)

(** [cosine_similarity(a, b)] *)
Definition cosine_similarity (a b : list float) : outcome float :=
  obind (dot a b) (fun d => Ok (PrimFloat.div d (PrimFloat.mul (norm a) (norm b)))).

(** [extract_embedding(content)] *)
Definition extract_embedding (content : string) : outcome pyval :=
  match re_search content with
  | None => Ok PNone
  | Some (_, group1) =>
      match obind (json_loads group1) (fun data =>
            obind (get data "index" (PDict [])) (fun index =>
            get index "embedding" PNone)) with
      | Raise e => if is_JSONDecodeError e then Ok PNone else Raise e
      | Ok embedding => Ok embedding
      end
  end.

(** [embed_query(query, use_gpu)] *)
Definition embed_query (query : string) (use_gpu : bool) : M (list float) :=
  fun w => (text_embedding query use_gpu, provider_called query w).

Definition is_None (v : pyval) : bool :=
  match v with PNone => true | _ => false end.

(** The loop of [search] over the paths, appending to [results]. *)
Fixpoint score_all (query_embedding : list float) (paths : list Path)
    (results : list (Path * float)) : M (list (Path * float)) :=
  match paths with
  | [] => ret results
  | path :: paths' =>
      content <- read_text path ;;
      embedding <- lift (extract_embedding content) ;;
      if is_None embedding then score_all query_embedding paths' results
      else
        doc <- lift (np_array embedding) ;;
        score <- lift (cosine_similarity query_embedding doc) ;;
        score_all query_embedding paths' (appended results (path, score))
  end.

(** [results.sort(key=lambda x: -x[1])] *)
Definition rank (results : list (Path * float)) : list (Path * float) :=
  sort_by (fun x => PrimFloat.opp (snd x)) results.

Fixpoint print_results (results : list (Path * float)) : M unit :=
  match results with
  | [] => ret tt
  | (path, score) :: results' =>
      print ("[" ++ format_score score ++ "] " ++ path_str path) ;;;
      print_results results'
  end.

(** The entries [search] prints, in order: [results[:top_k]] after the
    sort. *)
Definition ranked (query : string) (directory : string) (top_k : Z) (use_gpu : bool)
  : M (list (Path * float)) :=
  eprint ("Searching: " ++ query ++ nl) ;;;
  query_embedding <- embed_query query use_gpu ;;
  results <- score_all query_embedding (rglob directory) [] ;;
  ret (upto top_k (rank results)).

(** [search(query, directory, top_k, use_gpu)] *)
Definition search (query : string) (directory : string) (top_k : Z) (use_gpu : bool) : M unit :=
  shown <- ranked query directory top_k use_gpu ;;
  print_results shown.

(** *** ymj_validate.py *)

(** The checks of the footer once [json.loads] returned (lines 69 to 75),
    appending to [errors]. *)
Definition check_footer (footer : pyval) (strict : bool) (errors : list string)
  : outcome (list string) :=
  obind (contains "schema" footer) (fun has_schema =>
  let errors := if negb has_schema
                then appended errors "JSON index missing 'schema' field"
                else errors in
  obind (contains "index" footer) (fun has_index =>
  if negb has_index
  then Ok (appended errors "JSON index missing 'index' field")
  else
    obind (get footer "index" (PDict [])) (fun index =>
    obind (contains "embedding" index) (fun has_embedding =>
    if negb has_embedding
    then if strict
         then Ok (appended errors "JSON index missing embedding (strict mode)")
         else Ok errors
    else Ok errors)))).

(** [validate_file(path, strict)], reading the file from [w]. *)
Definition validate_file (w : world) (path : Path) (strict : bool) : outcome (list string) :=
  match read w path with
  | Raise e => Ok ["Cannot read file: " ++ exn_msg e]
  | Ok content =>
      if negb (startswith content "---")
      then Ok ["Missing YAML header (must start with ---)"]
      else
        let header_end := find content "---" 3 in
        if (header_end =? -1)%Z
        then Ok ["Unclosed YAML header (missing closing ---)"]
        else
          let header_end := Z.to_nat header_end in
          let yaml_content := strip (slice 3 header_end content) in
          match yaml_safe_load yaml_content with
          | Raise e =>
              if is_YAMLError e then Ok ["Invalid YAML: " ++ exn_msg e] else Raise e
          | Ok header =>
              if negb (is_dict header)
              then Ok ["YAML header must be a mapping (dictionary)"]
              else
                obind (contains "doc_type" header) (fun has_doc_type =>
                let errors := if negb has_doc_type
                              then ["Missing required field: doc_type"]
                              else [] in
                obind (contains "title" header) (fun has_title =>
                let errors := if negb has_title
                              then appended errors "Missing required field: title"
                              else errors in
                let rest := drop (header_end + 3) content in
                match re_search rest with
                | Some (_, group1) =>
                    match json_loads group1 with
                    | Raise e =>
                        if is_JSONDecodeError e
                        then Ok (appended errors ("Invalid JSON in footer: " ++ exn_msg e))
                        else Raise e
                    | Ok footer => check_footer footer strict errors
                    end
                | None =>
                    if strict
                    then Ok (appended errors "Missing JSON index block (strict mode)")
                    else Ok errors
                end))
          end
  end.

(** The three marks [main] prints, U+26A0, U+2717 and U+2713: code
    points above 255, held here as their UTF-8 bytes. *)
Definition warning_mark : string :=
  String "226"%char (String "154"%char (String "160"%char EmptyString)).
Definition cross_mark : string :=
  String "226"%char (String "156"%char (String "151"%char EmptyString)).
Definition check_mark : string :=
  String "226"%char (String "156"%char (String "147"%char EmptyString)).

(** The inner loop of [main]: one line per error. *)
Fixpoint print_errors (errors : list string) : M unit :=
  match errors with
  | [] => ret tt
  | error :: errors' => print ("  - " ++ error) ;;; print_errors errors'
  end.

(** The loop of [main] over [args.files], with the running [all_valid]. *)
Fixpoint validate_all (paths : list Path) (strict : bool) (all_valid : bool) : M bool :=
  match paths with
  | [] => ret all_valid
  | path :: paths' =>
      if negb (String.eqb (path_suffix path) ".ymj")
      then print (warning_mark ++ " " ++ path_str path ++ ": Not a .ymj file, skipping") ;;;
           validate_all paths' strict all_valid
      else
        errors <- (fun w => (validate_file w path strict, w)) ;;
        match errors with
        | _ :: _ =>
            print (cross_mark ++ " " ++ path_str path ++ ":") ;;;
            print_errors errors ;;;
            validate_all paths' strict false
        | [] =>
            print (check_mark ++ " " ++ path_str path ++ ": Valid") ;;;
            validate_all paths' strict all_valid
        end
  end.

(** [main()] of ymj_validate.py, after the arguments were parsed: the
    status handed to [sys.exit]. *)
Definition validate_main (paths : list Path) (strict : bool) : M Z :=
  all_valid <- validate_all paths strict true ;;
  ret (if all_valid : bool then 0%Z else 1%Z).

End Libraries.
End Tools.

(** ** Library behaviour on sample inputs

    What PyYAML 6, [json] and numpy return on the handful of texts and
    values the examples below use. Each function is a finite table: a
    loader raises [RuntimeError "outside the table"] on any other input,
    a dumper gives the empty text. *)

Module Sample.

Definition dq : string := String "034"%char EmptyString.

Definition outside {A : Type} : outcome A := Raise (RuntimeError "outside the table").

(** The header [{doc_type: note, title: t}] and its YAML text. *)
Definition header : pyval :=
  PDict [ (PStr "doc_type", PStr "note"); (PStr "title", PStr "t") ].
Definition header_yaml : string := "doc_type: note" ++ nl ++ "title: t".

(** A header whose title ends with a fence opener. *)
Definition fenced_header : pyval :=
  PDict [ (PStr "doc_type", PStr "note"); (PStr "title", PStr "x```json") ].
Definition fenced_header_yaml : string := "doc_type: note" ++ nl ++ "title: x```json".

Definition yaml_safe_load (text : string) : outcome pyval :=
  if String.eqb text header_yaml then Ok header
  else if String.eqb text fenced_header_yaml then Ok fenced_header
  else if String.eqb text "- a" then Ok (PList [PStr "a"])
  else outside.

Definition yaml_dump (data : pyval) (flow : option bool) : string :=
  match data with
  | PDict [ (PStr "doc_type", PStr "note"); (PStr "title", PStr "t") ] => header_yaml ++ nl
  | _ => EmptyString
  end.

(** The footer [process_file] writes for the sample header and a vector
    of one component, and its text under [json.dumps(_, indent=2)]. *)
Definition footer (x : float) : pyval :=
  PDict [ (PStr "schema", PInt 1);
          (PStr "index", PDict [ (PStr "tags", PList []);
                                 (PStr "title", PStr "t");
                                 (PStr "embedding", PList [PFloat x]) ]) ].

Definition footer_json (x : string) : string :=
  "{" ++ nl ++
  "  " ++ dq ++ "schema" ++ dq ++ ": 1," ++ nl ++
  "  " ++ dq ++ "index" ++ dq ++ ": {" ++ nl ++
  "    " ++ dq ++ "tags" ++ dq ++ ": []," ++ nl ++
  "    " ++ dq ++ "title" ++ dq ++ ": " ++ dq ++ "t" ++ dq ++ "," ++ nl ++
  "    " ++ dq ++ "embedding" ++ dq ++ ": [" ++ nl ++
  "      " ++ x ++ nl ++
  "    ]" ++ nl ++
  "  }" ++ nl ++
  "}".

Definition json_loads (text : string) : outcome pyval :=
  if String.eqb text (footer_json "1.0") then Ok (footer 1%float)
  else if String.eqb text (footer_json "0.0") then Ok (footer 0%float)
  else if String.eqb text "{}" then Ok (PDict [])
  else if String.eqb text "null" then Ok PNone
  else if String.eqb text "foo" then Raise (JSONDecodeError "Expecting value: line 1 column 1 (char 0)")
  else if String.eqb text ("---" ++ nl ++ "body")
       then Raise (JSONDecodeError "Expecting value: line 1 column 1 (char 0)")
  else outside.

Definition json_dumps (obj : pyval) (indent : nat) : string :=
  match obj, indent with
  | PDict [ (PStr "schema", PInt 1%Z);
            (PStr "index", PDict [ (PStr "tags", PList []);
                                   (PStr "title", PStr "t");
                                   (PStr "embedding", PList [PFloat x]) ]) ], 2 =>
      if PrimFloat.Leibniz.eqb x 1%float then footer_json "1.0"
      else if PrimFloat.Leibniz.eqb x 0%float then footer_json "0.0"
      else EmptyString
  | _, _ => EmptyString
  end.

(** A provider standing in for the model: every text gets the vector
    [[1.0]]. *)
Definition unit_provider (text : string) (use_gpu : bool) : outcome (list float) :=
  Ok [1%float].

(** A provider whose model cannot be loaded. *)
Definition failing_provider (text : string) (use_gpu : bool) : outcome (list float) :=
  Raise (RuntimeError "model unavailable").

(** [np.array] on a list of JSON reals. *)
Fixpoint reals (l : list pyval) : option (list float) :=
  match l with
  | [] => Some []
  | PFloat x :: l' => option_map (cons x) (reals l')
  | _ :: _ => None
  end.

Definition np_array (v : pyval) : outcome (list float) :=
  match v with
  | PList l => match reals l with Some a => Ok a | None => outside end
  | _ => outside
  end.

Definition ymj (name : string) : Path := mkPath (name ++ ".ymj") name ".ymj".

Definition world_of (fs : list (string * string)) : world :=
  mkWorld (map (fun kv => (fst kv, Ok (snd kv))) fs) EmptyString EmptyString [] [].

(** A file whose body is only a footer block. *)
Definition json_block (x : string) : string :=
  "```json" ++ nl ++ footer_json x ++ nl ++ "```" ++ nl.

(** A complete document: header, body, footer. *)
Definition document (body x : string) : string :=
  "---" ++ nl ++ header_yaml ++ nl ++ "---" ++ nl ++ nl ++ body ++ nl ++ json_block x.

End Sample.

(** More of the same tables: the dump of a header that is a list, and
    two footers written by hand on one line. *)

Module Sample2.

Definition yaml_dump (data : pyval) (flow : option bool) : string :=
  match data with
  | PList [PStr "a"] => "- a" ++ nl
  | _ => Sample.yaml_dump data flow
  end.

(** A footer whose vector has two components. *)
Definition pair_footer : pyval :=
  PDict [ (PStr "index", PDict [ (PStr "embedding", PList [PFloat 1%float; PFloat 0%float]) ]) ].
Definition pair_footer_json : string :=
  "{" ++ Sample.dq ++ "index" ++ Sample.dq ++ ": {"
      ++ Sample.dq ++ "embedding" ++ Sample.dq ++ ": [1.0, 0.0]}}".

(** A footer whose embedding is [null]. *)
Definition null_footer : pyval :=
  PDict [ (PStr "schema", PInt 1);
          (PStr "index", PDict [ (PStr "embedding", PNone) ]) ].
Definition null_footer_json : string :=
  "{" ++ Sample.dq ++ "schema" ++ Sample.dq ++ ": 1, "
      ++ Sample.dq ++ "index" ++ Sample.dq ++ ": {"
      ++ Sample.dq ++ "embedding" ++ Sample.dq ++ ": null}}".

Definition json_loads (text : string) : outcome pyval :=
  if String.eqb text pair_footer_json then Ok pair_footer
  else if String.eqb text null_footer_json then Ok null_footer
  else Sample.json_loads text.

(** A complete document whose footer block holds [footer_text]. *)
Definition document (body footer_text : string) : string :=
  "---" ++ (nl ++ Sample.header_yaml ++ nl) ++ "---"
        ++ (nl ++ nl ++ body ++ nl ++ "```json" ++ nl ++ footer_text ++ nl ++ "```" ++ nl).

End Sample2.

(** A third table: a footer block that holds a number. *)
Module Sample3.

Definition json_loads (text : string) : outcome pyval :=
  if String.eqb text "42" then Ok (PInt 42) else Sample2.json_loads text.

End Sample3.

(** * Facts about strings *)

Module StrFacts.

Lemma app_nil_r (s : string) : s ++ "" = s.
Proof. induction s; simpl; congruence. Qed.

Lemma app_assoc (a b c : string) : (a ++ b) ++ c = a ++ b ++ c.
Proof. induction a; simpl; congruence. Qed.

Lemma length_app (a b : string) : String.length (a ++ b) = String.length a + String.length b.
Proof. induction a; simpl; congruence. Qed.

Lemma drop_app (a b : string) : drop (String.length a) (a ++ b) = b.
Proof. induction a; simpl; auto. Qed.

Lemma take_app (a b : string) : take (String.length a) (a ++ b) = a.
Proof. induction a; simpl; congruence. Qed.

Lemma take_drop (n : nat) (s : string) : take n s ++ drop n s = s.
Proof.
  revert s; induction n as [|n IH]; intros s; simpl; auto.
  destruct s; simpl; auto. now rewrite IH.
Qed.

Lemma drop_drop (n m : nat) (s : string) : drop n (drop m s) = drop (m + n) s.
Proof.
  revert s; induction m as [|m IH]; intros s; simpl; auto.
  destruct s; simpl; auto. now destruct n.
Qed.

Lemma startswith_app (p s : string) : startswith (p ++ s) p = true.
Proof. induction p; cbn [startswith append]; auto. now rewrite Ascii.eqb_refl. Qed.

Lemma startswith_cons (c d : ascii) (s p : string) :
  startswith (String d s) (String c p) = Ascii.eqb c d && startswith s p.
Proof. reflexivity. Qed.

Lemma startswith_split (s p : string) :
  startswith s p = true -> s = p ++ drop (String.length p) s.
Proof.
  revert s; induction p as [|c p IH]; intros s H; cbn [startswith append String.length drop] in *; auto.
  destruct s as [|d s]; [discriminate|].
  apply andb_true_iff in H as [Hc Hp]. apply Ascii.eqb_eq in Hc. subst d.
  f_equal. auto.
Qed.

(** A pattern without [c] cannot reach across a [c]. *)
Lemma startswith_before (c : ascii) (p a x : string) :
  has_char c p = false ->
  startswith (a ++ String c x) p = startswith a p.
Proof.
  revert a; induction p as [|d p IH]; intros a H; cbn [has_char startswith] in *; auto.
  apply orb_false_iff in H as [Hd Hp].
  destruct a as [|e a]; cbn [append].
  - rewrite Ascii.eqb_sym, Hd. reflexivity.
  - now rewrite IH.
Qed.

Lemma index_of_before (c : ascii) (p a x : string) :
  has_char c p = false -> p <> EmptyString ->
  index_of p a = None ->
  index_of p (a ++ String c x) = option_map (fun i => String.length a + 1 + i) (index_of p x).
Proof.
  intros Hc Hp. induction a as [|e a IH]; intros Ha.
  - simpl append. destruct p as [|d p]; [congruence|].
    cbn [has_char] in Hc. apply orb_false_iff in Hc as [Hd _].
    change (index_of (String d p) (String c x))
      with (if startswith (String c x) (String d p) then Some 0
            else option_map S (index_of (String d p) x)).
    cbn [startswith]. rewrite Ascii.eqb_sym, Hd.
    cbn. now destruct (index_of (String d p) x).
  - simpl append.
    change (index_of p (String e (a ++ String c x)))
      with (if startswith (String e (a ++ String c x)) p then Some 0
            else option_map S (index_of p (a ++ String c x))).
    change (String e (a ++ String c x)) with ((String e a) ++ String c x).
    rewrite startswith_before by assumption.
    change (index_of p (String e a))
      with (if startswith (String e a) p then Some 0
            else option_map S (index_of p a)) in Ha.
    destruct (startswith (String e a) p); [discriminate|].
    destruct (index_of p a) eqn:E; [discriminate|].
    rewrite IH by reflexivity.
    destruct (index_of p x); reflexivity.
Qed.


Lemma index_of_unfold (p s : string) :
  index_of p s =
  if startswith s p then Some 0
  else match s with
       | EmptyString => None
       | String _ s' => option_map S (index_of p s')
       end.
Proof. destruct s; reflexivity. Qed.

Lemma index_of_sound (p s : string) (i : nat) :
  index_of p s = Some i -> startswith (drop i s) p = true.
Proof.
  revert i; induction s as [|c s IH]; intros i H; rewrite index_of_unfold in H.
  - destruct (startswith "" p) eqn:E; [|discriminate]. now inversion H.
  - destruct (startswith (String c s) p) eqn:E.
    + now inversion H.
    + destruct (index_of p s) as [j|]; [|discriminate].
      inversion H. cbn [drop]. now apply IH.
Qed.

Lemma index_of_here (p x : string) : index_of p (p ++ x) = Some 0.
Proof. rewrite index_of_unfold, startswith_app. reflexivity. Qed.

Lemma occurs_false (p s : string) : occurs p s = false -> index_of p s = None.
Proof. unfold occurs. now destruct (index_of p s). Qed.

(** *** White space *)

Lemma rstrip_space (s : string) (c : ascii) :
  is_space c = true -> rstrip (s ++ String c EmptyString) = rstrip s.
Proof.
  intros Hc. induction s as [|d s IH]; cbn [append rstrip].
  - now rewrite Hc.
  - now rewrite IH.
Qed.

Lemma strip_space_l (s : string) (c : ascii) :
  is_space c = true -> strip (String c s) = strip s.
Proof. intros Hc. unfold strip. cbn [lstrip]. now rewrite Hc. Qed.

Lemma strip_space_r (s : string) (c : ascii) :
  is_space c = true -> strip (s ++ String c EmptyString) = strip s.
Proof.
  intros Hc. unfold strip. induction s as [|d s IH]; cbn [append lstrip].
  - now rewrite Hc.
  - destruct (is_space d); [exact IH|].
    change (String d (s ++ String c "")) with (String d s ++ String c "").
    now apply rstrip_space.
Qed.

Lemma is_space_nl : is_space "010"%char = true.
Proof. reflexivity. Qed.

(** *** The footer pattern *)

Lemma re_search_unfold (s : string) :
  re_search s =
  match match_here s with
  | Some g => Some (0, g)
  | None => match s with
            | EmptyString => None
            | String _ s' => shift 1 (re_search s')
            end
  end.
Proof. destruct s; reflexivity. Qed.

Lemma match_here_no_open (s : string) :
  startswith s fence_open = false -> match_here s = None.
Proof. unfold match_here. now intros ->. Qed.

(** No match starts inside a text without fence opener that is followed
    by a character the opener does not hold. *)
Lemma re_search_before (c : ascii) (a x : string) :
  has_char c fence_open = false ->
  index_of fence_open a = None ->
  re_search (a ++ String c x) = shift (String.length a + 1) (re_search x).
Proof.
  intros Hc. induction a as [|e a IH]; intros Ha.
  - cbn [append String.length Nat.add]. rewrite re_search_unfold.
    rewrite match_here_no_open; [reflexivity|].
    change (String c x) with (EmptyString ++ String c x).
    now rewrite startswith_before.
  - rewrite index_of_unfold in Ha.
    destruct (startswith (String e a) fence_open) eqn:E; [discriminate|].
    destruct (index_of fence_open a) eqn:E'; [discriminate|].
    rewrite re_search_unfold, match_here_no_open.
    + cbn [append]. rewrite IH by reflexivity.
      destruct (re_search x) as [[i g]|]; reflexivity.
    + now rewrite startswith_before.
Qed.

Lemma index_of_close (jd x : string) :
  index_of fence_close jd = None ->
  index_of fence_close (jd ++ fence_close ++ x) = Some (String.length jd).
Proof.
  induction jd as [|e jd IH]; intros H.
  - change ("" ++ fence_close ++ x) with (fence_close ++ x). apply index_of_here.
  - rewrite index_of_unfold in H.
    destruct (startswith (String e jd) fence_close) eqn:E; [discriminate|].
    destruct (index_of fence_close jd) eqn:E'; [discriminate|].
    rewrite index_of_unfold.
    assert (startswith (String e jd ++ fence_close ++ x) fence_close = false) as ->.
    { change fence_close with (String "010"%char "```") in *.
      change (String e jd ++ String "010"%char "```" ++ x)
        with (String e (jd ++ String "010"%char ("```" ++ x))).
      rewrite startswith_cons in *.
      rewrite startswith_before by reflexivity. exact E. }
    cbn [append]. rewrite IH by reflexivity. reflexivity.
Qed.

(** The pattern matched against a footer block as [process_file] lays it
    out: the group is the text between the fences. *)
Lemma match_here_block (jd x : string) :
  solid jd = true ->
  index_of fence_close jd = None ->
  match_here (fence_open ++ nl ++ jd ++ fence_close ++ x) = Some jd.
Proof.
  intros Hs Hj. unfold match_here.
  rewrite startswith_app, drop_app.
  destruct jd as [|c r]; [discriminate|]. cbn [solid] in Hs.
  apply negb_true_iff in Hs.
  cbn [nl append space_run]. rewrite is_space_nl, Hs.
  cbn [backtrack]. unfold after_spaces at 1. cbn [drop].
  assert (Ascii.eqb c "010" = false) as ->.
  { destruct (Ascii.eqb c "010") eqn:E; [|reflexivity].
    apply Ascii.eqb_eq in E. subst c. discriminate. }
  unfold after_spaces. cbn [drop]. rewrite Ascii.eqb_refl.
  change (String c (r ++ fence_close ++ x)) with (String c r ++ fence_close ++ x).
  rewrite index_of_close by assumption. cbn [option_map].
  now rewrite take_app.
Qed.

Lemma take_app_cons (a b : string) (c : ascii) :
  take (String.length a + 1) (a ++ String c b) = a ++ String c EmptyString.
Proof. induction a as [|d a IH]; cbn [String.length Nat.add take append]; congruence. Qed.

Lemma strip_nl_l (s : string) : strip (nl ++ s) = strip s.
Proof. apply strip_space_l. reflexivity. Qed.

Lemma strip_nl_r (s : string) : strip (s ++ nl) = strip s.
Proof. apply strip_space_r. reflexivity. Qed.

Lemma index_of_after_nl (p a : string) :
  has_char "010"%char p = false -> p <> EmptyString ->
  index_of p a = None -> index_of p (String "010"%char a) = None.
Proof.
  intros Hc Hp Ha. rewrite index_of_unfold, Ha.
  destruct p as [|d p]; [congruence|].
  rewrite startswith_cons. cbn [has_char] in Hc.
  apply orb_false_iff in Hc as [Hd _]. rewrite Ascii.eqb_sym, Hd. reflexivity.
Qed.

(** *** A text with its header between two fences *)

Lemma fenced_find (a x : string) :
  index_of "---" (a ++ "---" ++ x) = Some (String.length a) ->
  find ("---" ++ a ++ "---" ++ x) "---" 3 = Z.of_nat (3 + String.length a).
Proof.
  intros Ha. unfold find.
  change (drop 3 ("---" ++ a ++ "---" ++ x)) with (a ++ "---" ++ x).
  rewrite Ha.
  replace (Nat.ltb _ 3) with false; [reflexivity|].
  symmetry. apply Nat.ltb_ge. cbn [append String.length]. lia.
Qed.

Lemma fenced_slice (a x : string) :
  slice 3 (3 + String.length a) ("---" ++ a ++ "---" ++ x) = a.
Proof.
  unfold slice. replace (3 + String.length a - 3) with (String.length a) by lia.
  change (drop 3 ("---" ++ a ++ "---" ++ x)) with (a ++ "---" ++ x).
  apply take_app.
Qed.

Lemma fenced_drop (a x : string) :
  drop (3 + String.length a + 3) ("---" ++ a ++ "---" ++ x) = x.
Proof.
  replace (3 + String.length a + 3) with (String.length ("---" ++ a ++ "---")).
  - rewrite <- (drop_app ("---" ++ a ++ "---") x) at 2.
    now rewrite !app_assoc.
  - rewrite !length_app. cbn [String.length]. lia.
Qed.

Lemma length_take (n : nat) (s : string) :
  n <= String.length s -> String.length (take n s) = n.
Proof.
  revert s; induction n as [|n IH]; intros s H; [reflexivity|].
  destruct s as [|c s]; cbn [String.length take] in *; [lia|].
  rewrite IH; lia.
Qed.

Lemma startswith_length (s p : string) :
  startswith s p = true -> String.length p <= String.length s.
Proof.
  revert s; induction p as [|c p IH]; intros s H; cbn [String.length]; [lia|].
  destruct s as [|d s]; [discriminate|].
  rewrite startswith_cons in H. apply andb_true_iff in H as [_ H].
  apply IH in H. cbn [String.length]. lia.
Qed.

Lemma length_drop (n : nat) (s : string) :
  String.length (drop n s) = String.length s - n.
Proof.
  revert s; induction n as [|n IH]; intros s; cbn [drop]; [lia|].
  destruct s as [|c s]; cbn [String.length]; [reflexivity|]. apply IH.
Qed.

(** Every text that passes the two fence tests of [parse_ymj] and
    [validate_file] is a header between two fences. *)
Lemma fenced_form (content : string) (header_end : nat) :
  startswith content "---" = true ->
  find content "---" 3 = Z.of_nat header_end ->
  exists a x,
    content = "---" ++ a ++ "---" ++ x
    /\ index_of "---" (a ++ "---" ++ x) = Some (String.length a)
    /\ header_end = 3 + String.length a.
Proof.
  intros Hs Hf.
  apply startswith_split in Hs. cbn [String.length] in Hs.
  unfold find in Hf.
  destruct (Nat.ltb (String.length content) 3); [lia|].
  destruct (index_of "---" (drop 3 content)) as [i|] eqn:Hi; [|lia].
  apply Nat2Z.inj in Hf. subst header_end.
  pose proof (index_of_sound _ _ _ Hi) as Hc.
  pose proof (startswith_length _ _ Hc) as Hl. cbn [String.length] in Hl.
  rewrite length_drop in Hl.
  apply startswith_split in Hc. cbn [String.length] in Hc.
  exists (take i (drop 3 content)), (drop 3 (drop i (drop 3 content))).
  assert (Hlen : String.length (take i (drop 3 content)) = i) by (apply length_take; lia).
  rewrite Hlen. repeat split.
  - rewrite <- Hc, take_drop. exact Hs.
  - rewrite <- Hc, take_drop. exact Hi.
Qed.

Lemma re_search_dash (s : string) : re_search (String "-"%char s) = shift 1 (re_search s).
Proof. rewrite re_search_unfold. reflexivity. Qed.

(** The pattern searched in a whole text whose header holds no fence
    opener finds what it finds after the header. *)
Lemma re_search_fenced (a x : string) :
  index_of fence_open a = None ->
  re_search ("---" ++ a ++ "---" ++ x) = shift (3 + String.length a + 3) (re_search x).
Proof.
  intros Ha. cbn [append]. rewrite !re_search_dash.
  change (a ++ String "-"%char (String "-"%char (String "-"%char x)))
    with (a ++ String "-"%char ("--" ++ x)).
  rewrite re_search_before by (reflexivity || assumption).
  cbn [append]. rewrite !re_search_dash.
  destruct (re_search x) as [[i g]|]; cbn [shift]; [|reflexivity].
  do 2 f_equal. lia.
Qed.

End StrFacts.
Import StrFacts.
(** * Facts about binary64 floats *)

Module FloatFacts.

(** Case analysis on the specification floats of a comparison. *)
Ltac sf_compare :=
  repeat match goal with
         | |- context [Z.compare ?a ?b] => destruct (Z.compare_spec a b)
         | H : context [Z.compare ?a ?b] |- _ => destruct (Z.compare_spec a b)
         | |- context [Pos.compare_cont Eq ?a ?b] =>
             change (Pos.compare_cont Eq a b) with (Pos.compare a b);
             destruct (Pos.compare_spec a b)
         | H : context [Pos.compare_cont Eq ?a ?b] |- _ =>
             change (Pos.compare_cont Eq a b) with (Pos.compare a b) in H;
             destruct (Pos.compare_spec a b)
         end;
  cbn in *; try congruence; try lia.

Ltac sf_cases :=
  unfold SFltb, SFeqb, SFcompare, SFopp in *;
  repeat match goal with
         | x : spec_float |- _ => destruct x
         end;
  repeat match goal with
         | b : bool |- _ => destruct b
         end;
  cbn in *; try congruence; sf_compare.

Lemma SFltb_asym (x y : spec_float) : SFltb x y = true -> SFltb y x = false.
Proof. intros H. sf_cases. Qed.

Lemma SFltb_le_trans (x y z : spec_float) :
  y <> S754_nan -> SFltb y x = false -> SFltb z y = false -> SFltb z x = false.
Proof. intros Hy H1 H2. sf_cases. Qed.

Lemma SFltb_opp (x y : spec_float) : SFltb (SFopp y) (SFopp x) = SFltb x y.
Proof. sf_cases. Qed.

Lemma SFeqb_no_lt (x y v : spec_float) :
  SFeqb x v = true -> SFeqb y v = true -> SFltb y x = false.
Proof. intros H1 H2. sf_cases. Qed.

(** *** The same facts on the kernel's floats *)

Lemma not_nan (x : float) : PrimFloat.is_nan x = false -> Prim2SF x <> S754_nan.
Proof.
  intros H E. unfold PrimFloat.is_nan in H. rewrite eqb_spec, E in H. discriminate.
Qed.

Lemma is_nan_of_spec (x : float) : Prim2SF x = S754_nan -> PrimFloat.is_nan x = true.
Proof. intros E. unfold PrimFloat.is_nan. rewrite eqb_spec, E. reflexivity. Qed.

Lemma is_infinity_of_spec (x : float) (b : bool) :
  Prim2SF x = S754_infinity b -> PrimFloat.is_infinity x = true.
Proof.
  intros E. unfold PrimFloat.is_infinity. rewrite eqb_spec, abs_spec, E. reflexivity.
Qed.

Lemma ltb_asym (x y : float) : PrimFloat.ltb x y = true -> PrimFloat.ltb y x = false.
Proof. rewrite !ltb_spec. apply SFltb_asym. Qed.

Lemma ltb_le_trans (x y z : float) :
  PrimFloat.is_nan y = false ->
  PrimFloat.ltb y x = false -> PrimFloat.ltb z y = false -> PrimFloat.ltb z x = false.
Proof. intros Hy. rewrite !ltb_spec. apply SFltb_le_trans. now apply not_nan. Qed.

Lemma ltb_opp (x y : float) :
  PrimFloat.ltb (PrimFloat.opp y) (PrimFloat.opp x) = PrimFloat.ltb x y.
Proof. rewrite !ltb_spec, !opp_spec. apply SFltb_opp. Qed.

Lemma eqb_no_lt (x y v : float) :
  PrimFloat.eqb x v = true -> PrimFloat.eqb y v = true -> PrimFloat.ltb y x = false.
Proof. rewrite !eqb_spec, ltb_spec. apply SFeqb_no_lt. Qed.

Lemma is_nan_opp (x : float) : PrimFloat.is_nan (PrimFloat.opp x) = PrimFloat.is_nan x.
Proof.
  unfold PrimFloat.is_nan. rewrite !eqb_spec, opp_spec. f_equal.
  generalize (Prim2SF x). intros s. sf_cases.
Qed.

(** *** Division by a product with a zero factor *)

Lemma zero_of_eqb (x : float) :
  PrimFloat.eqb x 0%float = true -> exists b, Prim2SF x = S754_zero b.
Proof.
  rewrite eqb_spec. change (Prim2SF 0%float) with (S754_zero false).
  destruct (Prim2SF x) as [b| | |b m e]; try (now exists b); intros H; sf_cases.
Qed.

Lemma SFmul_zero (x y : spec_float) :
  (exists b, x = S754_zero b) \/ (exists b, y = S754_zero b) ->
  SF64mul x y = S754_nan \/ exists b, SF64mul x y = S754_zero b.
Proof.
  unfold SF64mul, SFmul.
  intros [[b ->]|[b ->]]; [destruct y|destruct x]; eauto.
Qed.

Lemma SFdiv_zero (x y : spec_float) :
  y = S754_nan \/ (exists b, y = S754_zero b) ->
  SF64div x y = S754_nan \/ exists b, SF64div x y = S754_infinity b.
Proof.
  unfold SF64div, SFdiv.
  intros [->|[b ->]]; destruct x; eauto.
Qed.

(** A quotient whose divisor is a product with a zero factor is [nan] or
    an infinity. *)
Lemma div_by_zero_product (d na nb : float) :
  PrimFloat.eqb na 0%float = true \/ PrimFloat.eqb nb 0%float = true ->
  PrimFloat.is_nan (PrimFloat.div d (PrimFloat.mul na nb)) = true
  \/ PrimFloat.is_infinity (PrimFloat.div d (PrimFloat.mul na nb)) = true.
Proof.
  intros H.
  assert (Hm : Prim2SF (PrimFloat.mul na nb) = S754_nan
               \/ exists b, Prim2SF (PrimFloat.mul na nb) = S754_zero b).
  { rewrite mul_spec. apply SFmul_zero.
    destruct H as [H|H]; [left|right]; now apply zero_of_eqb. }
  destruct (SFdiv_zero (Prim2SF d) _ Hm) as [E|[b E]]; rewrite <- div_spec in E.
  - left. now apply is_nan_of_spec.
  - right. now apply is_infinity_of_spec with (b := b).
Qed.

End FloatFacts.
Import FloatFacts.

(** * Facts about the sort *)

Module SortFacts.

Section ByKey.

Context {A : Type} (key : A -> float).

(** [a] may stand before [b]: the key of [b] is not below the key of [a]. *)
Local Abbreviation before := (fun a b : A => PrimFloat.ltb (key b) (key a) = false).

Lemma insert_by_perm (x : A) (l : list A) : Permutation (x :: l) (insert_by key x l).
Proof.
  induction l as [|y l IH]; cbn [insert_by]; [reflexivity|].
  destruct (PrimFloat.ltb (key y) (key x)); [|reflexivity].
  rewrite perm_swap. now apply perm_skip.
Qed.

Lemma sort_by_perm (l : list A) : Permutation l (sort_by key l).
Proof.
  induction l as [|x l IH]; cbn [sort_by]; [reflexivity|].
  rewrite <- insert_by_perm. now apply perm_skip.
Qed.

Lemma insert_by_sorted (x : A) (l : list A) :
  Forall (fun y => PrimFloat.is_nan (key y) = false) l ->
  StronglySorted before l ->
  StronglySorted before (insert_by key x l).
Proof.
  intros Hn Hs. induction Hs as [|y l Hs IH Hy]; cbn [insert_by].
  - constructor; constructor.
  - inversion Hn as [|? ? Hny Hnl]; subst.
    destruct (PrimFloat.ltb (key y) (key x)) eqn:E.
    + constructor; [now apply IH|].
      apply (Permutation_Forall (insert_by_perm x l)).
      constructor; [|assumption]. now apply ltb_asym.
    + constructor; [now constructor|].
      constructor; [assumption|].
      apply Forall_forall. intros z Hz.
      rewrite Forall_forall in Hy. specialize (Hy z Hz).
      now apply ltb_le_trans with (y := key y).
Qed.

Lemma sort_by_sorted (l : list A) :
  Forall (fun y => PrimFloat.is_nan (key y) = false) l ->
  StronglySorted before (sort_by key l).
Proof.
  induction l as [|x l IH]; intros Hn; cbn [sort_by]; [constructor|].
  inversion Hn; subst.
  apply insert_by_sorted; [|now apply IH].
  now apply (Permutation_Forall (sort_by_perm l)).
Qed.

(** Entries that the keys do not tell apart keep their order. *)
Lemma insert_by_filter (p : A -> bool) (x : A) (l : list A) :
  (forall a b, p a = true -> p b = true -> PrimFloat.ltb (key b) (key a) = false) ->
  filter p (insert_by key x l) = filter p (x :: l).
Proof.
  intros Hp. induction l as [|y l IH]; cbn [insert_by]; [reflexivity|].
  destruct (PrimFloat.ltb (key y) (key x)) eqn:E; [|reflexivity].
  cbn [filter] in *. rewrite IH.
  destruct (p x) eqn:Ex, (p y) eqn:Ey; try reflexivity.
  rewrite (Hp x y Ex Ey) in E. discriminate.
Qed.

Lemma sort_by_stable (p : A -> bool) (l : list A) :
  (forall a b, p a = true -> p b = true -> PrimFloat.ltb (key b) (key a) = false) ->
  filter p (sort_by key l) = filter p l.
Proof.
  intros Hp. induction l as [|x l IH]; cbn [sort_by]; [reflexivity|].
  rewrite insert_by_filter by assumption. cbn [filter]. now rewrite IH.
Qed.

End ByKey.

Lemma StronglySorted_weaken {A : Type} (R R' : A -> A -> Prop) (l : list A) :
  (forall a b, R a b -> R' a b) -> StronglySorted R l -> StronglySorted R' l.
Proof.
  intros H Hs. induction Hs as [|x l Hs IH Hx]; constructor; [assumption|].
  eapply Forall_impl; [|exact Hx]. apply H.
Qed.

Lemma in_firstn {A : Type} (n : nat) (l : list A) (x : A) : In x (firstn n l) -> In x l.
Proof.
  revert l; induction n as [|n IH]; intros l H; [contradiction|].
  destruct l as [|y l]; [contradiction|].
  destruct H as [H|H]; [now left|right; now apply IH].
Qed.

Lemma in_upto {A : Type} (k : Z) (l : list A) (x : A) : In x (upto k l) -> In x l.
Proof. unfold upto. destruct (k <? 0)%Z; apply in_firstn. Qed.

End SortFacts.
Import SortFacts.

(** * Facts about [strip] and about products *)

Module MoreFacts.

(** *** [strip] applied twice *)

Lemma rstrip_solid_head (c : ascii) (r : string) :
  is_space c = false -> rstrip (String c r) = String c (rstrip r).
Proof. intros Hc. cbn [rstrip]. rewrite Hc. now destruct (rstrip r). Qed.

Lemma rstrip_idem (s : string) : rstrip (rstrip s) = rstrip s.
Proof.
  induction s as [|c r IH]; [reflexivity|].
  cbn [rstrip]. destruct (rstrip r) as [|d r'] eqn:E.
  - destruct (is_space c) eqn:Hc; [reflexivity|].
    cbn [rstrip]. now rewrite Hc.
  - cbn [rstrip] in IH |- *. now rewrite IH.
Qed.

Lemma lstrip_head (s : string) :
  lstrip s = EmptyString \/ exists c r, lstrip s = String c r /\ is_space c = false.
Proof.
  induction s as [|c r IH]; [now left|].
  cbn [lstrip]. destruct (is_space c) eqn:Hc; [exact IH|].
  right. now exists c, r.
Qed.

Lemma strip_idem (s : string) : strip (strip s) = strip s.
Proof.
  unfold strip. destruct (lstrip_head s) as [->|(c & r & -> & Hc)]; [reflexivity|].
  rewrite (rstrip_solid_head _ r Hc). cbn [lstrip]. rewrite Hc.
  rewrite <- (rstrip_solid_head _ r Hc). apply rstrip_idem.
Qed.

(** *** Products of floats commute *)

Lemma SF64mul_comm (x y : spec_float) : SF64mul x y = SF64mul y x.
Proof.
  unfold SF64mul, SFmul.
  destruct x as [sx|sx| |sx mx ex], y as [sy|sy| |sy my ey];
    try reflexivity; try (now rewrite xorb_comm).
  now rewrite xorb_comm, Pos.mul_comm, Z.add_comm.
Qed.

Lemma mul_comm (x y : float) : PrimFloat.mul x y = PrimFloat.mul y x.
Proof.
  rewrite <- (SF2Prim_Prim2SF (PrimFloat.mul x y)), <- (SF2Prim_Prim2SF (PrimFloat.mul y x)).
  now rewrite !mul_spec, SF64mul_comm.
Qed.

Lemma products_comm (a b : list float) : products a b = products b a.
Proof.
  revert b; induction a as [|x a IH]; intros [|y b]; cbn [products]; try reflexivity.
  now rewrite mul_comm, IH.
Qed.

Lemma appended_not_nil {A : Type} (l : list A) (x : A) : appended l x <> [].
Proof. unfold appended. destruct l; discriminate. Qed.

End MoreFacts.
Import MoreFacts.


(** * Properties of the tools *)

Section Properties.

Context (yaml_safe_load : string -> outcome pyval)
        (yaml_dump : pyval -> option bool -> string)
        (json_loads : string -> outcome pyval)
        (json_dumps : pyval -> nat -> string)
        (text_embedding : string -> bool -> outcome (list float))
        (np_array : pyval -> outcome (list float))
        (rglob : string -> list Path)
        (format_score : float -> string).

Local Abbreviation parse_ymj := (Tools.parse_ymj yaml_safe_load json_loads).
Local Abbreviation rebuild := (Tools.rebuild yaml_dump json_dumps).
Local Abbreviation process_file :=
  (Tools.process_file yaml_safe_load yaml_dump json_loads json_dumps text_embedding).
Local Abbreviation batch :=
  (Tools.batch yaml_safe_load yaml_dump json_loads json_dumps text_embedding).
Local Abbreviation embed_main :=
  (Tools.embed_main yaml_safe_load yaml_dump json_loads json_dumps text_embedding).
Local Abbreviation extract_embedding := (Tools.extract_embedding json_loads).
Local Abbreviation score_all := (Tools.score_all json_loads np_array).
Local Abbreviation ranked := (Tools.ranked json_loads text_embedding np_array rglob).
Local Abbreviation validate_file := (Tools.validate_file yaml_safe_load json_loads).
Local Abbreviation already_embedded := Tools.already_embedded.
Local Abbreviation new_footer := Tools.new_footer.
Local Abbreviation cosine_similarity := Tools.cosine_similarity.
Local Abbreviation rank := Tools.rank.

(** The file laid out by [rebuild], fence by fence. *)
Lemma rebuild_layout (header : pyval) (markdown : string) (footer : pyval) :
  rebuild header markdown footer =
  "---" ++ (nl ++ yaml_dump header (Some false)) ++ "---"
        ++ (nl ++ nl ++ markdown)
        ++ String "010"%char (fence_open ++ nl ++ json_dumps footer 2 ++ fence_close ++ nl).
Proof.
  unfold Tools.rebuild, fence_open, fence_close.
  cbn [nl append]. rewrite !app_assoc. cbn [nl append]. reflexivity.
Qed.


(** [parse_ymj] on a text whose header is [a]: the closing fence is the
    first [---] after the opening one. *)
Lemma parse_ymj_fenced (a x : string) :
  index_of "---" (a ++ "---" ++ x) = Some (String.length a) ->
  parse_ymj ("---" ++ a ++ "---" ++ x) =
  obind (yaml_safe_load (strip a)) (fun header =>
  match re_search x with
  | Some (start, group1) =>
      obind (json_loads group1) (fun footer => Ok (header, strip (take start x), footer))
  | None => Ok (header, strip x, PNone)
  end).
Proof.
  intros Ha. unfold Tools.parse_ymj.
  replace (startswith _ "---") with true by (symmetry; apply startswith_app).
  rewrite (fenced_find _ _ Ha). cbn [negb].
  replace (Z.of_nat (3 + String.length a) =? -1)%Z with false by (symmetry; apply Z.eqb_neq; lia).
  rewrite Nat2Z.id, fenced_slice, fenced_drop. reflexivity.
Qed.

(** Parsing what [rebuild] lays out, when the dumped header ends its last
    line and holds no fence, the markdown holds no fence opener, and the
    dumped footer begins with a character other than white space and
    holds no closing fence. *)
Lemma parse_rebuild (header : pyval) (markdown : string) (footer : pyval) (y : string) :
  yaml_dump header (Some false) = y ++ nl ->
  index_of "---" y = None ->
  index_of fence_open markdown = None ->
  solid (json_dumps footer 2) = true ->
  index_of fence_close (json_dumps footer 2) = None ->
  parse_ymj (rebuild header markdown footer) =
  obind (yaml_safe_load (strip (yaml_dump header (Some false)))) (fun h =>
  obind (json_loads (json_dumps footer 2)) (fun f =>
  Ok (h, strip markdown, f))).
Proof.
  intros Hy Hdash Hmd Hsolid Hclose.
  rewrite rebuild_layout.
  set (jd := json_dumps footer 2) in *.
  set (block := fence_open ++ nl ++ jd ++ fence_close ++ nl).
  rewrite parse_ymj_fenced.
  - rewrite strip_nl_l.
    rewrite re_search_before; [|reflexivity|].
    + unfold block. rewrite re_search_unfold, match_here_block by assumption.
      cbn [shift]. rewrite Nat.add_0_r, take_app_cons.
      now rewrite strip_space_r, !strip_nl_l by reflexivity.
    + cbn [nl append].
      do 2 (apply index_of_after_nl; [reflexivity|discriminate|]). assumption.
  - rewrite Hy.
    replace ((nl ++ y ++ nl) ++ "---" ++ (nl ++ nl ++ markdown) ++ String "010"%char block)
      with ((nl ++ y) ++ String "010"%char ("---" ++ (nl ++ nl ++ markdown) ++ String "010"%char block))
      by (cbn [nl append]; now rewrite !app_assoc).
    rewrite index_of_before; [|reflexivity|discriminate|].
    + rewrite index_of_here. cbn [option_map]. f_equal.
      rewrite !length_app. cbn [nl String.length]. lia.
    + cbn [nl append]. apply index_of_after_nl; [reflexivity|discriminate|assumption].
Qed.

(** ** Round trip *)

(** C1, as amended. Parsing the text [process_file] rebuilds from a
    header, a markdown and a footer gives back the header as
    [yaml.safe_load] reads its dump, the markdown stripped, and the footer
    as [json.loads] reads its dump, provided that the dumped header ends
    with a line feed and holds no [---], the markdown holds no fence
    opener, and the dumped footer begins with a character other than
    white space and holds no closing fence at the start of a line. *)
Theorem parse_rebuild_roundtrip
    (header header' : pyval) (markdown : string) (footer footer' : pyval) (y : string) :
  yaml_dump header (Some false) = y ++ nl ->
  index_of "---" y = None ->
  index_of fence_open markdown = None ->
  solid (json_dumps footer 2) = true ->
  index_of fence_close (json_dumps footer 2) = None ->
  yaml_safe_load (strip (yaml_dump header (Some false))) = Ok header' ->
  json_loads (json_dumps footer 2) = Ok footer' ->
  parse_ymj (rebuild header markdown footer) = Ok (header', strip markdown, footer').
Proof.
  intros Hy Hdash Hmd Hsolid Hclose Hh Hf.
  rewrite (parse_rebuild _ _ _ _ Hy Hdash Hmd Hsolid Hclose), Hh.
  cbn [obind]. rewrite Hf. reflexivity.
Qed.

(** ** Headers of another shape *)

(** C9, on [parse_ymj]: a header text that loads as a value other than a
    mapping is returned as the header; no error is raised. *)
Theorem parse_ymj_returns_any_header (a x : string) (header : pyval) :
  index_of "---" (a ++ "---" ++ x) = Some (String.length a) ->
  yaml_safe_load (strip a) = Ok header ->
  is_dict header = false ->
  re_search x = None ->
  parse_ymj ("---" ++ a ++ "---" ++ x) = Ok (header, strip x, PNone).
Proof.
  intros Ha Hh _ Hx. rewrite (parse_ymj_fenced _ _ Ha), Hh. cbn [obind].
  now rewrite Hx.
Qed.

(** ** Validation *)

(** [validate_file] on a readable text whose header loads as a mapping. *)
Lemma validate_file_fenced (w : world) (path : Path) (strict : bool)
    (a x : string) (d : list (pyval * pyval)) :
  read w path = Ok ("---" ++ a ++ "---" ++ x) ->
  index_of "---" (a ++ "---" ++ x) = Some (String.length a) ->
  yaml_safe_load (strip a) = Ok (PDict d) ->
  validate_file w path strict =
  let errors := match lookup "doc_type" d with
                | Some _ => []
                | None => ["Missing required field: doc_type"]
                end in
  let errors := match lookup "title" d with
                | Some _ => errors
                | None => appended errors "Missing required field: title"
                end in
  match re_search x with
  | Some (_, group1) =>
      match json_loads group1 with
      | Raise e =>
          if is_JSONDecodeError e
          then Ok (appended errors ("Invalid JSON in footer: " ++ exn_msg e))
          else Raise e
      | Ok footer => Tools.check_footer footer strict errors
      end
  | None =>
      if strict then Ok (appended errors "Missing JSON index block (strict mode)")
      else Ok errors
  end.
Proof.
  intros Hr Ha Hh. unfold Tools.validate_file. rewrite Hr.
  replace (startswith _ "---") with true by (symmetry; apply startswith_app).
  rewrite (fenced_find _ _ Ha). cbn [negb].
  replace (Z.of_nat (3 + String.length a) =? -1)%Z with false by (symmetry; apply Z.eqb_neq; lia).
  rewrite Nat2Z.id, fenced_slice, fenced_drop, Hh.
  cbn [is_dict negb contains obind].
  destruct (lookup "doc_type" d), (lookup "title" d); reflexivity.
Qed.

(** C8: [validate_file] raises [TypeError] on a file whose footer block
    decodes to [None] (the JSON text [null]): the membership test
    ["schema" not in footer] is outside what the handler catches. *)
Theorem validate_file_raises_on_null_footer (w : world) (path : Path) (strict : bool)
    (a x : string) (d : list (pyval * pyval)) (start : nat) (group1 : string) :
  read w path = Ok ("---" ++ a ++ "---" ++ x) ->
  index_of "---" (a ++ "---" ++ x) = Some (String.length a) ->
  yaml_safe_load (strip a) = Ok (PDict d) ->
  re_search x = Some (start, group1) ->
  json_loads group1 = Ok PNone ->
  validate_file w path strict = Raise (TypeError "argument is not iterable").
Proof.
  intros Hr Ha Hh Hx Hj.
  rewrite (validate_file_fenced _ _ _ _ _ _ Hr Ha Hh). cbv zeta.
  rewrite Hx, Hj. reflexivity.
Qed.

(** ** The first fenced block *)

Lemma get_not_decode_error (v : pyval) (key : string) (default : pyval) (e : exn) :
  get v key default = Raise e -> is_JSONDecodeError e = false.
Proof. destruct v; cbn [get]; intros H; inversion H; reflexivity. Qed.

(** [extract_embedding] once the footer block decoded. *)
Lemma extract_embedding_decoded (content : string) (start : nat) (group1 : string)
    (footer : pyval) :
  re_search content = Some (start, group1) ->
  json_loads group1 = Ok footer ->
  extract_embedding content =
  obind (get footer "index" (PDict [])) (fun index => get index "embedding" PNone).
Proof.
  intros Hs Hj. unfold Tools.extract_embedding. rewrite Hs, Hj. cbn [obind].
  destruct (get footer "index" (PDict [])) as [index|e] eqn:E; cbn [obind].
  - destruct (get index "embedding" PNone) as [v|e] eqn:E'; [reflexivity|].
    now rewrite (get_not_decode_error _ _ _ _ E').
  - now rewrite (get_not_decode_error _ _ _ _ E).
Qed.

(** C10, as amended. In a document whose header text holds no fence
    opener, the first fenced [json] block after the header is the footer
    for both readers: [parse_ymj] decodes it and returns the text before
    it as the markdown, and [extract_embedding] reads [index.embedding]
    from the same block. *)
Theorem first_block_is_the_footer (a x : string) (header : pyval)
    (start : nat) (group1 : string) (footer : pyval) :
  index_of "---" (a ++ "---" ++ x) = Some (String.length a) ->
  index_of fence_open a = None ->
  yaml_safe_load (strip a) = Ok header ->
  re_search x = Some (start, group1) ->
  json_loads group1 = Ok footer ->
  parse_ymj ("---" ++ a ++ "---" ++ x) = Ok (header, strip (take start x), footer)
  /\ extract_embedding ("---" ++ a ++ "---" ++ x)
     = obind (get footer "index" (PDict [])) (fun index => get index "embedding" PNone).
Proof.
  intros Ha Hopen Hh Hx Hj. split.
  - rewrite (parse_ymj_fenced _ _ Ha), Hh. cbn [obind]. now rewrite Hx, Hj.
  - apply extract_embedding_decoded with (start := 3 + String.length a + 3 + start) (group1 := group1);
      [|assumption].
    now rewrite (re_search_fenced _ _ Hopen), Hx.
Qed.

(** ** One file through [process_file] *)

Lemma assoc_store {V : Type} (key : string) (v : V) (l : list (string * V)) :
  assoc key (store key v l) = Some v.
Proof.
  induction l as [|[k v'] l IH]; cbn [store assoc].
  - now rewrite String.eqb_refl.
  - destruct (String.eqb key k) eqn:E; cbn [assoc]; rewrite E; auto.
Qed.

Lemma read_wrote (path : Path) (text : string) (w : world) :
  read (wrote path text w) path = Ok text.
Proof. unfold read, wrote. cbn [files]. now rewrite assoc_store. Qed.

(** A parse error of class [ValueError]: a diagnostic, and [False]. *)
Lemma process_file_parse_error (w : world) (path : Path) (use_gpu force : bool)
    (content : string) (e : exn) :
  read w path = Ok content ->
  parse_ymj content = Raise e ->
  is_ValueError e = true ->
  process_file path use_gpu force w
  = (Ok false, complained (("Error parsing " ++ path_str path ++ ": " ++ exn_msg e) ++ nl) w).
Proof.
  intros Hr Hp He. unfold Tools.process_file, bind, read_text.
  rewrite Hr, Hp, He. reflexivity.
Qed.

(** The test of line 75 holds: a notice, and [True]. *)
Lemma process_file_skips (w : world) (path : Path) (use_gpu force : bool)
    (content : string) (header : pyval) (markdown : string) (footer : pyval) :
  read w path = Ok content ->
  parse_ymj content = Ok (header, markdown, footer) ->
  already_embedded footer force = Ok true ->
  process_file path use_gpu force w
  = (Ok true,
     said (("Skipping " ++ path_str path ++ " (already embedded, use --force to re-embed)") ++ nl) w).
Proof.
  intros Hr Hp Ht. unfold Tools.process_file, bind, read_text, lift.
  rewrite Hr, Hp, Ht. reflexivity.
Qed.

(** The test of line 75 fails and the model answers: the file is
    rewritten with a fresh footer. *)
Lemma process_file_embeds (w : world) (path : Path) (use_gpu force : bool)
    (content : string) (d : list (pyval * pyval)) (markdown : string) (footer : pyval)
    (embedding : list float) :
  read w path = Ok content ->
  parse_ymj content = Ok (PDict d, markdown, footer) ->
  already_embedded footer force = Ok false ->
  text_embedding (yaml_dump (PDict d) None ++ nl ++ markdown) use_gpu = Ok embedding ->
  process_file path use_gpu force w
  = (Ok true,
     said ("done" ++ nl)
       (wrote path
          (rebuild (PDict d) markdown
             (new_footer (match lookup "tags" d with Some v => v | None => PList [] end)
                         (match lookup "title" d with Some v => v | None => PStr (path_stem path) end)
                         embedding))
          (provider_called (yaml_dump (PDict d) None ++ nl ++ markdown)
             (said (("Embedding " ++ path_str path ++ "...") ++ " ") w)))).
Proof.
  intros Hr Hp Ht He.
  unfold Tools.process_file, bind, read_text, lift, Tools.embed_text.
  rewrite Hr, Hp, Ht. cbn [print_end fst snd]. rewrite He. reflexivity.
Qed.

(** With [force] set, the test of line 75 is false for an absent footer
    and for a mapping whose [index] entry is absent or a mapping. *)
Lemma forced_test (footer : pyval) :
  footer = PNone \/
  (exists fd, footer = PDict fd /\
     (lookup "index" fd = None \/ exists index, lookup "index" fd = Some (PDict index))) ->
  already_embedded footer true = Ok false.
Proof.
  intros [->|[fd [-> H]]]; [reflexivity|].
  unfold Tools.already_embedded. destruct fd as [|kv fd]; [reflexivity|].
  cbn [truthy negb contains obind getitem].
  destruct H as [->|[index ->]]; [reflexivity|].
  cbn [negb obind contains].
  destruct (lookup "embedding" index); reflexivity.
Qed.

(** C5, as amended. The document is [---], its header text [a], [---]
    and the rest [x]; the header is a mapping, and the footer (what the
    first json block of [x] decodes to, or [None] without a block) is
    absent or a mapping whose [index] entry is absent or a mapping. The
    model answers, and the rewritten file reads back: the dumped header
    ends with a line feed and holds no [---], the markdown holds no fence
    opener, the dumped footer begins with a character other than white
    space and holds no closing fence at the start of a line, and the
    libraries load what they dumped. Then [process_file] with [force] set
    asks the model once, for the dumped header followed by the markdown,
    and rewrites the file as the dumped header, the markdown and a footer
    built afresh: [schema] is 1, [tags] the header's [tags] or the empty
    list, [title] the header's [title] or the stem of the path,
    [embedding] the vector returned. The markdown is the part of [x]
    before its first json block, stripped, so nothing of the former block
    is written, and the file parses again to that markdown and the fresh
    footer. *)
Theorem forced_embed_overwrites (w : world) (path : Path) (use_gpu : bool)
    (a x : string) (d : list (pyval * pyval)) (old : pyval) (embedding : list float)
    (y : string) (header' : pyval) :
  let markdown :=
    strip (match re_search x with Some (start, _) => take start x | None => x end) in
  let fresh :=
    PDict [ (PStr "schema", PInt 1);
            (PStr "index",
             PDict [ (PStr "tags", match lookup "tags" d with Some v => v | None => PList [] end);
                     (PStr "title",
                      match lookup "title" d with Some v => v | None => PStr (path_stem path) end);
                     (PStr "embedding", PList (map PFloat embedding)) ]) ] in
  let text := rebuild (PDict d) markdown fresh in
  read w path = Ok ("---" ++ a ++ "---" ++ x) ->
  index_of "---" (a ++ "---" ++ x) = Some (String.length a) ->
  yaml_safe_load (strip a) = Ok (PDict d) ->
  match re_search x with
  | Some (_, group1) => json_loads group1 = Ok old
  | None => old = PNone
  end ->
  (old = PNone \/
   exists fd, old = PDict fd /\
     (lookup "index" fd = None \/ exists index, lookup "index" fd = Some (PDict index))) ->
  text_embedding (yaml_dump (PDict d) None ++ nl ++ markdown) use_gpu = Ok embedding ->
  yaml_dump (PDict d) (Some false) = y ++ nl ->
  index_of "---" y = None ->
  index_of fence_open markdown = None ->
  solid (json_dumps fresh 2) = true ->
  index_of fence_close (json_dumps fresh 2) = None ->
  yaml_safe_load (strip (yaml_dump (PDict d) (Some false))) = Ok header' ->
  json_loads (json_dumps fresh 2) = Ok fresh ->
  let result := process_file path use_gpu true w in
  fst result = Ok true
  /\ provider_calls (snd result)
     = appended (provider_calls w) (yaml_dump (PDict d) None ++ nl ++ markdown)
  /\ writes (snd result) = appended (writes w) (path_str path, text)
  /\ read (snd result) path = Ok text
  /\ parse_ymj text = Ok (header', markdown, fresh).
Proof.
  intros markdown fresh text Hr Ha Hh Hfoot Hshape He
    Hy Hdash Hmd Hsolid Hclose Hload Hjson result.
  assert (Hp : parse_ymj ("---" ++ a ++ "---" ++ x) = Ok (PDict d, markdown, old)).
  { rewrite (parse_ymj_fenced _ _ Ha), Hh. cbn [obind]. subst markdown.
    destruct (re_search x) as [[start group1]|].
    - now rewrite Hfoot.
    - now subst old. }
  subst result.
  rewrite (process_file_embeds _ _ _ _ _ _ _ _ _ Hr Hp (forced_test _ Hshape) He).
  cbn [fst snd].
  split; [reflexivity|]. split; [reflexivity|]. split; [reflexivity|].
  split; [apply read_wrote|].
  subst text.
  rewrite (parse_rebuild _ _ _ _ Hy Hdash Hmd Hsolid Hclose), Hload. cbn [obind].
  rewrite Hjson. cbn [obind]. subst markdown. now rewrite strip_idem.
Qed.

(** ** The batch *)

(** C3, as amended. A file that fails to parse with an error of class
    [ValueError] (no opening fence, no closing fence, or a footer block
    that [json.loads] rejects) is reported on standard error and not
    counted, and the batch goes on with the remaining files. *)
Theorem batch_goes_on_after_parse_error (w : world) (path : Path) (paths : list Path)
    (use_gpu force : bool) (success : nat) (content : string) (e : exn) :
  path_suffix path = ".ymj" ->
  read w path = Ok content ->
  (startswith content "---" = false /\ e = ValueError "Missing YAML header")
  \/ (startswith content "---" = true /\ find content "---" 3 = (-1)%Z
      /\ e = ValueError "Unclosed YAML header")
  \/ (exists a x header start group1 msg,
        content = "---" ++ a ++ "---" ++ x
        /\ index_of "---" (a ++ "---" ++ x) = Some (String.length a)
        /\ yaml_safe_load (strip a) = Ok header
        /\ re_search x = Some (start, group1)
        /\ json_loads group1 = Raise (JSONDecodeError msg)
        /\ e = JSONDecodeError msg) ->
  batch (path :: paths) use_gpu force success w
  = batch paths use_gpu force success
      (complained (("Error parsing " ++ path_str path ++ ": " ++ exn_msg e) ++ nl) w).
Proof.
  intros Hsuf Hr Hcause.
  assert (Hp : parse_ymj content = Raise e /\ is_ValueError e = true).
  { destruct Hcause as [[Hs ->]|[[Hs [Hf ->]]|Hfooter]].
    - unfold Tools.parse_ymj. rewrite Hs. now split.
    - unfold Tools.parse_ymj. rewrite Hs, Hf. now split.
    - destruct Hfooter as (a & x & header & start & group1 & msg & -> & Ha & Hh & Hx & Hj & ->).
      rewrite (parse_ymj_fenced _ _ Ha), Hh. cbn [obind]. rewrite Hx, Hj. now split. }
  destruct Hp as [Hp He].
  cbn [Tools.batch]. rewrite Hsuf.
  change (negb (String.eqb ".ymj" ".ymj")) with false. cbv iota.
  unfold bind at 1.
  rewrite (process_file_parse_error _ _ _ _ _ _ Hr Hp He). reflexivity.
Qed.

(** ** Embedding twice *)

Lemma fresh_footer_is_embedded (tags title : pyval) (embedding : list float) :
  already_embedded (new_footer tags title embedding) false = Ok true.
Proof. reflexivity. Qed.

(** C2, as amended. [process_file] run twice without [force] on a
    document that parses without an embedded index, with a model that
    answers, asks the model once and writes the file once; the second
    run prints the skip notice, returns [True] and leaves every file as
    the first run left it. This holds when the rebuilt file reads back:
    the dumped header ends with a line feed and holds no [---], the
    markdown holds no fence opener, the dumped footer begins with a
    character other than white space and holds no closing fence, and the
    libraries load what they dumped. *)
Theorem embed_twice_embeds_once (w : world) (path : Path) (use_gpu : bool)
    (content : string) (d : list (pyval * pyval)) (markdown : string) (footer : pyval)
    (embedding : list float) (y : string) (header' : pyval) :
  let fresh :=
    new_footer (match lookup "tags" d with Some v => v | None => PList [] end)
               (match lookup "title" d with Some v => v | None => PStr (path_stem path) end)
               embedding in
  read w path = Ok content ->
  parse_ymj content = Ok (PDict d, markdown, footer) ->
  already_embedded footer false = Ok false ->
  text_embedding (yaml_dump (PDict d) None ++ nl ++ markdown) use_gpu = Ok embedding ->
  yaml_dump (PDict d) (Some false) = y ++ nl ->
  index_of "---" y = None ->
  index_of fence_open markdown = None ->
  solid (json_dumps fresh 2) = true ->
  index_of fence_close (json_dumps fresh 2) = None ->
  yaml_safe_load (strip (yaml_dump (PDict d) (Some false))) = Ok header' ->
  json_loads (json_dumps fresh 2) = Ok fresh ->
  let first := process_file path use_gpu false w in
  let second := process_file path use_gpu false (snd first) in
  fst first = Ok true
  /\ fst second = Ok true
  /\ provider_calls (snd second)
     = appended (provider_calls w) (yaml_dump (PDict d) None ++ nl ++ markdown)
  /\ writes (snd second)
     = appended (writes w) (path_str path, rebuild (PDict d) markdown fresh)
  /\ files (snd second) = files (snd first)
  /\ snd second
     = said (("Skipping " ++ path_str path ++ " (already embedded, use --force to re-embed)") ++ nl)
         (snd first).
Proof.
  intros fresh Hr Hp Ht He Hy Hdash Hmd Hsolid Hclose Hh Hj first second.
  assert (H1 : first
    = (Ok true,
       said ("done" ++ nl)
         (wrote path (rebuild (PDict d) markdown fresh)
            (provider_called (yaml_dump (PDict d) None ++ nl ++ markdown)
               (said (("Embedding " ++ path_str path ++ "...") ++ " ") w))))).
  { apply (process_file_embeds _ _ _ _ _ _ _ _ _ Hr Hp Ht He). }
  assert (H2 : second
    = (Ok true,
       said (("Skipping " ++ path_str path ++ " (already embedded, use --force to re-embed)") ++ nl)
         (snd first))).
  { unfold second.
    apply process_file_skips
      with (content := rebuild (PDict d) markdown fresh) (header := header')
           (markdown := strip markdown) (footer := fresh).
    - rewrite H1. cbn [snd]. apply (read_wrote path).
    - rewrite (parse_rebuild _ _ _ _ Hy Hdash Hmd Hsolid Hclose), Hh. cbn [obind].
      now rewrite Hj.
    - apply fresh_footer_is_embedded. }
  rewrite H2. cbn [fst snd]. rewrite H1. cbn [fst snd]. repeat split.
Qed.

(** ** Search *)

(** The loop of [search] reads and never writes; every entry it adds
    comes from a listed path whose text yields an embedding other than
    [None]. *)
Lemma score_all_adds_indexed (query_embedding : list float) (paths : list Path) :
  forall (results out : list (Path * float)) (w w' : world),
    score_all query_embedding paths results w = (Ok out, w') ->
    w' = w
    /\ forall x, In x out ->
         In x results
         \/ exists content embedding,
              read w (fst x) = Ok content
              /\ extract_embedding content = Ok embedding
              /\ Tools.is_None embedding = false.
Proof.
  induction paths as [|path paths IH]; intros results out w w' H.
  - inversion H; subst. split; [reflexivity|]. intros x Hx. now left.
  - cbn [Tools.score_all] in H. unfold bind, read_text, lift in H.
    destruct (read w path) as [content|] eqn:Hr; [|discriminate].
    destruct (extract_embedding content) as [embedding|] eqn:He; [|discriminate].
    destruct (Tools.is_None embedding) eqn:Hn.
    + now apply IH.
    + destruct (np_array embedding) as [doc|]; [|discriminate].
      destruct (cosine_similarity query_embedding doc) as [score|]; [|discriminate].
      apply IH in H as [-> H]. split; [reflexivity|].
      intros x Hx. destruct (H x Hx) as [Hin|Hnew]; [|now right].
      unfold appended in Hin. apply in_app_or in Hin as [Hin|[<-|[]]]; [now left|].
      right. exists content, embedding. now repeat split.
Qed.

(** The texts [extract_embedding] finds no embedding in. *)
Lemma unindexed_extracts_none (content : string) :
  re_search content = None
  \/ (exists start group1,
        re_search content = Some (start, group1)
        /\ ((exists msg, json_loads group1 = Raise (JSONDecodeError msg))
            \/ exists d, json_loads group1 = Ok (PDict d)
                 /\ (lookup "index" d = None
                     \/ exists index, lookup "index" d = Some (PDict index)
                          /\ (lookup "embedding" index = None
                              \/ lookup "embedding" index = Some PNone)))) ->
  extract_embedding content = Ok PNone.
Proof.
  unfold Tools.extract_embedding.
  intros [->|(start & group1 & -> & [[msg ->]|(d & -> & H)])]; try reflexivity.
  cbn [obind get].
  destruct H as [->|(index & -> & H)]; [reflexivity|].
  cbn [obind get]. now destruct H as [->| ->].
Qed.

(** C4, as amended. A document in which [extract_embedding] finds no
    embedding never appears among the ranked entries: a text with no
    fenced [json] block, a block that [json.loads] rejects, a decoded
    mapping without [index], or an [index] mapping whose [embedding] is
    missing or [null]. The header is not looked at. *)
Theorem unindexed_is_never_ranked (w w' : world) (query directory : string) (top_k : Z)
    (use_gpu : bool) (out : list (Path * float)) (path : Path) (content : string) :
  ranked query directory top_k use_gpu w = (Ok out, w') ->
  read w path = Ok content ->
  re_search content = None
  \/ (exists start group1,
        re_search content = Some (start, group1)
        /\ ((exists msg, json_loads group1 = Raise (JSONDecodeError msg))
            \/ exists d, json_loads group1 = Ok (PDict d)
                 /\ (lookup "index" d = None
                     \/ exists index, lookup "index" d = Some (PDict index)
                          /\ (lookup "embedding" index = None
                              \/ lookup "embedding" index = Some PNone)))) ->
  ~ In path (map fst out).
Proof.
  intros Hrun Hr Hcase Hin.
  apply unindexed_extracts_none in Hcase.
  unfold Tools.ranked, bind, eprint, Tools.embed_query, ret in Hrun.
  destruct (text_embedding query use_gpu) as [query_embedding|]; [|discriminate].
  destruct (score_all query_embedding (rglob directory) [] _) as [[results|] w1] eqn:Hs;
    [|discriminate].
  inversion Hrun; subst out w'. clear Hrun.
  apply score_all_adds_indexed in Hs as [_ Hs].
  apply in_map_iff in Hin as [[p score] [Hp Hin]]. cbn [fst] in Hp. subst p.
  apply in_upto in Hin.
  apply (Permutation_in _ (Permutation_sym (sort_by_perm _ results))) in Hin.
  destruct (Hs _ Hin) as [[]|(content' & embedding & Hr' & He & Hn)].
  cbn [fst] in Hr'.
  change (read w path = Ok content') in Hr'.
  rewrite Hr in Hr'. inversion Hr'; subst content'.
  rewrite Hcase in He. inversion He; subst embedding. discriminate.
Qed.

(** C6, as amended. [cosine_similarity] divides without a test: when the
    query vector or the stored vector has norm zero the score is [nan] or
    an infinity, and [search] appends the document with that score like
    any other. *)
Theorem zero_magnitude_is_scored (w : world) (query_embedding : list float)
    (path : Path) (paths : list Path) (results : list (Path * float))
    (content : string) (embedding : pyval) (doc : list float) :
  read w path = Ok content ->
  extract_embedding content = Ok embedding ->
  Tools.is_None embedding = false ->
  np_array embedding = Ok doc ->
  List.length query_embedding = List.length doc ->
  PrimFloat.eqb (norm query_embedding) 0%float = true
  \/ PrimFloat.eqb (norm doc) 0%float = true ->
  exists score,
    cosine_similarity query_embedding doc = Ok score
    /\ (PrimFloat.is_nan score = true \/ PrimFloat.is_infinity score = true)
    /\ score_all query_embedding (path :: paths) results w
       = score_all query_embedding paths (appended results (path, score)) w.
Proof.
  intros Hr He Hn Ha Hlen Hzero.
  unfold Tools.cosine_similarity, dot. rewrite Hlen, Nat.eqb_refl. cbn [obind].
  eexists. split; [reflexivity|]. split.
  - now apply div_by_zero_product.
  - cbn [Tools.score_all]. unfold bind at 1, read_text. rewrite Hr.
    unfold bind at 1, lift. rewrite He, Hn.
    unfold bind at 1. rewrite Ha.
    unfold bind at 1, Tools.cosine_similarity, dot. rewrite Hlen, Nat.eqb_refl.
    reflexivity.
Qed.



End Properties.

(** * Examples on the sample library tables *)

(** A document with a plain body survives the round trip. *)
Lemma parse_rebuild_roundtrip_witness :
  Tools.parse_ymj Sample.yaml_safe_load Sample.json_loads
    (Tools.rebuild Sample.yaml_dump Sample.json_dumps
       Sample.header "body" (Sample.footer 1%float))
  = Ok (Sample.header, strip "body", Sample.footer 1%float).
Proof.
  apply parse_rebuild_roundtrip with (y := Sample.header_yaml); reflexivity.
Defined.

(** C1 fails as stated: a markdown that is itself a fenced [json] block
    is taken for the footer. The libraries round-trip the header and the
    footer, yet the parsed markdown is empty and the parsed footer is the
    block of the markdown. *)
Lemma roundtrip_counterexample :
  let markdown := "```json" ++ nl ++ "{}" ++ nl ++ "```" in
  let text := Tools.rebuild Sample.yaml_dump Sample.json_dumps
                Sample.header markdown (Sample.footer 1%float) in
  Sample.yaml_safe_load (strip (Sample.yaml_dump Sample.header (Some false))) = Ok Sample.header
  /\ Sample.json_loads (Sample.json_dumps (Sample.footer 1%float) 2) = Ok (Sample.footer 1%float)
  /\ Tools.parse_ymj Sample.yaml_safe_load Sample.json_loads text
     = Ok (Sample.header, EmptyString, PDict [])
  /\ strip markdown <> EmptyString
  /\ Sample.footer 1%float <> PDict [].
Proof.
  cbv zeta. repeat split; try reflexivity; try discriminate.
Qed.

(** The header [- a] is a list; [parse_ymj] returns it. *)
Lemma parse_ymj_returns_any_header_witness :
  Tools.parse_ymj Sample.yaml_safe_load Sample.json_loads
    ("---" ++ (nl ++ "- a" ++ nl) ++ "---" ++ (nl ++ "body"))
  = Ok (PList [PStr "a"], strip (nl ++ "body"), PNone).
Proof.
  apply parse_ymj_returns_any_header; reflexivity.
Defined.

(** A valid header, a body, and a footer block that reads [null]. *)
Lemma validate_file_raises_on_null_footer_witness :
  let text := "---" ++ (nl ++ Sample.header_yaml ++ nl) ++ "---"
              ++ (nl ++ "body" ++ nl ++ "```json" ++ nl ++ "null" ++ nl ++ "```" ++ nl) in
  Tools.validate_file Sample.yaml_safe_load Sample.json_loads
    (Sample.world_of [("n.ymj", text)]) (Sample.ymj "n") false
  = Raise (TypeError "argument is not iterable").
Proof.
  cbv zeta.
  apply validate_file_raises_on_null_footer
    with (a := nl ++ Sample.header_yaml ++ nl)
         (x := nl ++ "body" ++ nl ++ "```json" ++ nl ++ "null" ++ nl ++ "```" ++ nl)
         (d := [ (PStr "doc_type", PStr "note"); (PStr "title", PStr "t") ])
         (start := 6) (group1 := "null");
    reflexivity.
Defined.

(** A complete document: both readers use its footer block. *)
Lemma first_block_is_the_footer_witness :
  let a := nl ++ Sample.header_yaml ++ nl in
  let x := nl ++ nl ++ "body" ++ nl ++ Sample.json_block "1.0" in
  Tools.parse_ymj Sample.yaml_safe_load Sample.json_loads ("---" ++ a ++ "---" ++ x)
  = Ok (Sample.header, strip (take 7 x), Sample.footer 1%float)
  /\ Tools.extract_embedding Sample.json_loads ("---" ++ a ++ "---" ++ x)
     = obind (get (Sample.footer 1%float) "index" (PDict []))
             (fun index => get index "embedding" PNone).
Proof.
  cbv zeta.
  apply first_block_is_the_footer with (group1 := Sample.footer_json "1.0"); reflexivity.
Defined.

(** C10 fails as stated: the title of this header ends with a fence
    opener. [parse_ymj] reads the footer block after the header, while
    [extract_embedding] matches from the opener inside the header, fails
    to decode what it captured and returns [None]. *)
Lemma first_block_counterexample :
  let a := nl ++ Sample.fenced_header_yaml ++ nl in
  let x := nl ++ "body" ++ nl ++ Sample.json_block "1.0" in
  re_search x = Some (6, Sample.footer_json "1.0")
  /\ Tools.parse_ymj Sample.yaml_safe_load Sample.json_loads ("---" ++ a ++ "---" ++ x)
     = Ok (Sample.fenced_header, "body", Sample.footer 1%float)
  /\ obind (get (Sample.footer 1%float) "index" (PDict []))
           (fun index => get index "embedding" PNone)
     = Ok (PList [PFloat 1%float])
  /\ Tools.extract_embedding Sample.json_loads ("---" ++ a ++ "---" ++ x) = Ok PNone.
Proof.
  cbv zeta. repeat split; reflexivity.
Qed.

(** A document that holds a footer of another make (no [schema], no
    [tags], no [title], a vector of two components), embedded with
    [force]: the file written holds the fresh footer only, and reads
    back with it. *)
Lemma forced_embed_overwrites_witness :
  let w := Sample.world_of [("n.ymj", Sample2.document "body" Sample2.pair_footer_json)] in
  let result := Tools.process_file Sample.yaml_safe_load Sample.yaml_dump Sample2.json_loads
                  Sample.json_dumps Sample.unit_provider (Sample.ymj "n") false true w in
  Tools.parse_ymj Sample.yaml_safe_load Sample2.json_loads
    (Sample2.document "body" Sample2.pair_footer_json)
  = Ok (Sample.header, "body", Sample2.pair_footer)
  /\ fst result = Ok true
  /\ provider_calls (snd result) = [Sample.header_yaml ++ nl ++ nl ++ "body"]
  /\ writes (snd result) = [("n.ymj", Sample.document "body" "1.0")]
  /\ read (snd result) (Sample.ymj "n") = Ok (Sample.document "body" "1.0")
  /\ Tools.parse_ymj Sample.yaml_safe_load Sample2.json_loads (Sample.document "body" "1.0")
     = Ok (Sample.header, "body", Sample.footer 1%float).
Proof.
  cbv zeta. split; [reflexivity|].
  apply (forced_embed_overwrites Sample.yaml_safe_load Sample.yaml_dump
           Sample2.json_loads Sample.json_dumps Sample.unit_provider
           (Sample.world_of
              [("n.ymj", Sample2.document "body" Sample2.pair_footer_json)])
           (Sample.ymj "n") false
           (nl ++ Sample.header_yaml ++ nl)
           (nl ++ nl ++ "body" ++ nl ++ "```json" ++ nl ++ Sample2.pair_footer_json
            ++ nl ++ "```" ++ nl)
           [ (PStr "doc_type", PStr "note"); (PStr "title", PStr "t") ]
           Sample2.pair_footer [1%float] Sample.header_yaml Sample.header);
    try reflexivity.
  right. exists [ (PStr "index",
                   PDict [ (PStr "embedding", PList [PFloat 1%float; PFloat 0%float]) ]) ].
  split; [reflexivity|]. right. eexists. reflexivity.
Defined.

(** C5 fails in two ways. A footer block that holds the number [42]:
    the test of line 75 evaluates ["index" in footer] before [not force],
    so the forced call raises [TypeError]; the model is not asked and
    nothing is printed or written. And a body that opens a json fence
    without closing it: the forced call asks the model and writes, but in
    the rewritten file the pattern matches from the fence of the body and
    captures [foo]; [parse_ymj] raises and [extract_embedding] returns
    [None], so no reader finds the new [index.embedding]. *)
Lemma forced_embed_counterexample :
  let number := Sample.world_of [("n.ymj", Sample2.document "body" "42")] in
  let unclosed :=
    Sample.world_of
      [("n.ymj", "---" ++ nl ++ Sample.header_yaml ++ nl ++ "---" ++ nl
                 ++ "```json" ++ nl ++ "foo")] in
  let forced := Tools.process_file Sample.yaml_safe_load Sample.yaml_dump Sample3.json_loads
                  Sample.json_dumps Sample.unit_provider (Sample.ymj "n") false true in
  let rewritten := Sample.document ("```json" ++ nl ++ "foo") "1.0" in
  Tools.parse_ymj Sample.yaml_safe_load Sample3.json_loads (Sample2.document "body" "42")
  = Ok (Sample.header, "body", PInt 42)
  /\ forced number = (Raise (TypeError "argument is not iterable"), number)
  /\ fst (forced unclosed) = Ok true
  /\ provider_calls (snd (forced unclosed))
     = [Sample.header_yaml ++ nl ++ nl ++ "```json" ++ nl ++ "foo"]
  /\ read (snd (forced unclosed)) (Sample.ymj "n") = Ok rewritten
  /\ Tools.parse_ymj Sample.yaml_safe_load Sample3.json_loads rewritten
     = Raise (JSONDecodeError "Expecting value: line 1 column 1 (char 0)")
  /\ Tools.extract_embedding Sample3.json_loads rewritten = Ok PNone.
Proof.
  cbv zeta. repeat split; reflexivity.
Qed.

(** A file without header, followed by another file. *)
Lemma batch_goes_on_after_parse_error_witness :
  let w := Sample.world_of [("bad.ymj", "no header")] in
  Tools.batch Sample.yaml_safe_load Sample.yaml_dump Sample.json_loads Sample.json_dumps
    Sample.unit_provider [Sample.ymj "bad"; Sample.ymj "n"] false false 0 w
  = Tools.batch Sample.yaml_safe_load Sample.yaml_dump Sample.json_loads Sample.json_dumps
      Sample.unit_provider [Sample.ymj "n"] false false 0
      (complained (("Error parsing " ++ "bad.ymj" ++ ": " ++ "Missing YAML header") ++ nl) w).
Proof.
  cbv zeta.
  apply (batch_goes_on_after_parse_error Sample.yaml_safe_load Sample.yaml_dump
           Sample.json_loads Sample.json_dumps Sample.unit_provider
           (Sample.world_of [("bad.ymj", "no header")]) (Sample.ymj "bad") [Sample.ymj "n"]
           false false 0 "no header" (ValueError "Missing YAML header")).
  - reflexivity.
  - reflexivity.
  - left. split; reflexivity.
Defined.

(** C3 fails as stated: a model that cannot be loaded makes
    [process_file] raise on the first file; [main] does not catch the
    error, the second file is never looked at and no summary is
    printed. *)
Lemma batch_aborts_on_provider_failure :
  let text := "---" ++ nl ++ Sample.header_yaml ++ nl ++ "---" ++ nl ++ "body" in
  let w := Sample.world_of [("n.ymj", text); ("m.ymj", text)] in
  let result := Tools.embed_main Sample.yaml_safe_load Sample.yaml_dump Sample.json_loads
                  Sample.json_dumps Sample.failing_provider
                  [Sample.ymj "n"; Sample.ymj "m"] false false w in
  fst result = Raise (RuntimeError "model unavailable")
  /\ stdout (snd result) = "Embedding n.ymj... "
  /\ stderr (snd result) = EmptyString
  /\ files (snd result) = files w.
Proof.
  cbv zeta. repeat split; reflexivity.
Qed.

(** A document with a plain body, embedded twice. *)
Lemma embed_twice_embeds_once_witness :
  let text := "---" ++ (nl ++ Sample.header_yaml ++ nl) ++ "---" ++ (nl ++ "body") in
  let w := Sample.world_of [("n.ymj", text)] in
  let first := Tools.process_file Sample.yaml_safe_load Sample.yaml_dump Sample.json_loads
                 Sample.json_dumps Sample.unit_provider (Sample.ymj "n") false false w in
  let second := Tools.process_file Sample.yaml_safe_load Sample.yaml_dump Sample.json_loads
                  Sample.json_dumps Sample.unit_provider (Sample.ymj "n") false false (snd first) in
  fst first = Ok true
  /\ fst second = Ok true
  /\ provider_calls (snd second) = [Sample.header_yaml ++ nl ++ nl ++ "body"]
  /\ writes (snd second) = [("n.ymj", Sample.document "body" "1.0")]
  /\ files (snd second) = files (snd first)
  /\ snd second
     = said (("Skipping " ++ "n.ymj" ++ " (already embedded, use --force to re-embed)") ++ nl)
         (snd first).
Proof.
  cbv zeta.
  apply (embed_twice_embeds_once Sample.yaml_safe_load Sample.yaml_dump Sample.json_loads
           Sample.json_dumps Sample.unit_provider
           (Sample.world_of
              [("n.ymj", "---" ++ (nl ++ Sample.header_yaml ++ nl) ++ "---" ++ (nl ++ "body"))])
           (Sample.ymj "n") false
           ("---" ++ (nl ++ Sample.header_yaml ++ nl) ++ "---" ++ (nl ++ "body"))
           [ (PStr "doc_type", PStr "note"); (PStr "title", PStr "t") ]
           "body" PNone [1%float] Sample.header_yaml Sample.header);
    reflexivity.
Defined.

(** C2 fails as stated: the body of this document opens a [json] fence
    and never closes it. The first run embeds and appends the footer
    block; in the rewritten file the pattern matches from the fence of the
    body up to the footer's opening fence and captures [foo], which
    [json.loads] rejects: the second run is an error, not a skip. *)
Lemma embed_twice_counterexample :
  let text := "---" ++ nl ++ Sample.header_yaml ++ nl ++ "---" ++ nl
              ++ "```json" ++ nl ++ "foo" in
  let w := Sample.world_of [("n.ymj", text)] in
  let first := Tools.process_file Sample.yaml_safe_load Sample.yaml_dump Sample.json_loads
                 Sample.json_dumps Sample.unit_provider (Sample.ymj "n") false false w in
  let second := Tools.process_file Sample.yaml_safe_load Sample.yaml_dump Sample.json_loads
                  Sample.json_dumps Sample.unit_provider (Sample.ymj "n") false false (snd first) in
  fst first = Ok true
  /\ read (snd first) (Sample.ymj "n")
     = Ok (Sample.document ("```json" ++ nl ++ "foo") "1.0")
  /\ fst second = Ok false
  /\ stdout (snd second) = stdout (snd first)
  /\ stderr (snd second)
     = "Error parsing n.ymj: Expecting value: line 1 column 1 (char 0)" ++ nl.
Proof.
  cbv zeta. repeat split; reflexivity.
Qed.

(** An embedded document and one without footer: only the first is
    ranked. *)
Lemma unindexed_is_never_ranked_witness :
  let plain := "---" ++ nl ++ Sample.header_yaml ++ nl ++ "---" ++ nl ++ "body" in
  let w := Sample.world_of [("a.ymj", Sample.document "body" "1.0"); ("c.ymj", plain)] in
  let walk := fun _ : string => [Sample.ymj "a"; Sample.ymj "c"] in
  fst (Tools.ranked Sample.json_loads Sample.unit_provider Sample.np_array walk
         "q" "docs" 10 false w)
  = Ok [(Sample.ymj "a", 1%float)]
  /\ ~ In (Sample.ymj "c") (map fst [(Sample.ymj "a", 1%float)]).
Proof.
  cbv zeta. split; [reflexivity|].
  eapply (unindexed_is_never_ranked Sample.json_loads Sample.unit_provider Sample.np_array
            (fun _ : string => [Sample.ymj "a"; Sample.ymj "c"])
            (Sample.world_of
               [("a.ymj", Sample.document "body" "1.0");
                ("c.ymj", "---" ++ nl ++ Sample.header_yaml ++ nl ++ "---" ++ nl ++ "body")])
            _ "q" "docs" 10 false).
  - reflexivity.
  - reflexivity.
  - left. reflexivity.
Defined.

(** C4 fails as stated: a file with no header at all, only a footer
    block, is refused by [parse_ymj] and still ranked by [search]. *)
Lemma headerless_document_is_ranked :
  let text := Sample.json_block "1.0" in
  let w := Sample.world_of [("a.ymj", text)] in
  let walk := fun _ : string => [Sample.ymj "a"] in
  Tools.parse_ymj Sample.yaml_safe_load Sample.json_loads text
  = Raise (ValueError "Missing YAML header")
  /\ fst (Tools.ranked Sample.json_loads Sample.unit_provider Sample.np_array walk
            "q" "docs" 10 false w)
     = Ok [(Sample.ymj "a", 1%float)].
Proof.
  cbv zeta. split; reflexivity.
Qed.

(** A document whose stored vector is [[0.0]], scored against [[1.0]]. *)
Lemma zero_magnitude_is_scored_witness :
  let w := Sample.world_of [("z.ymj", Sample.document "body" "0.0")] in
  exists score,
    Tools.cosine_similarity [1%float] [0%float] = Ok score
    /\ (PrimFloat.is_nan score = true \/ PrimFloat.is_infinity score = true)
    /\ Tools.score_all Sample.json_loads Sample.np_array [1%float] [Sample.ymj "z"] [] w
       = Tools.score_all Sample.json_loads Sample.np_array [1%float] []
           (appended [] (Sample.ymj "z", score)) w.
Proof.
  cbv zeta.
  apply (zero_magnitude_is_scored Sample.json_loads Sample.np_array
           (Sample.world_of [("z.ymj", Sample.document "body" "0.0")])
           [1%float] (Sample.ymj "z") [] []
           (Sample.document "body" "0.0") (PList [PFloat 0%float]) [0%float]);
    try reflexivity.
  right. reflexivity.
Defined.

(** C6 fails as stated: the document whose stored vector is [[0.0]] gets
    the score [nan] and is ranked first, ahead of a document of score
    1. *)
Lemma zero_vector_is_ranked_first :
  let w := Sample.world_of [("z.ymj", Sample.document "body" "0.0");
                            ("a.ymj", Sample.document "body" "1.0")] in
  let walk := fun _ : string => [Sample.ymj "z"; Sample.ymj "a"] in
  norm [0%float] = 0%float
  /\ fst (Tools.ranked Sample.json_loads Sample.unit_provider Sample.np_array walk
            "q" "docs" 10 false w)
     = Ok [(Sample.ymj "z", PrimFloat.nan); (Sample.ymj "a", 1%float)].
Proof.
  cbv zeta. split; reflexivity.
Qed.



(** The pattern on three texts, with the results of Python's [re]:
    white space given back up to the last line feed before the captured
    text, an empty capture when the fences follow each other, and no
    match for a fence that is never closed. *)
Example re_search_gives_back_spaces :
  re_search ("ab```json " ++ nl ++ " " ++ nl ++ nl ++ " x" ++ nl ++ "```") = Some (2, " x").
Proof. reflexivity. Qed.

Example re_search_empty_capture :
  re_search ("```json" ++ nl ++ nl ++ "```") = Some (0, EmptyString).
Proof. reflexivity. Qed.

Example re_search_unclosed_fence :
  re_search (nl ++ "```json" ++ nl ++ "foo") = None.
Proof. reflexivity. Qed.

(** [str.strip] removes the white space of both ends only. *)
Example strip_both_ends : strip ("  a b " ++ nl) = "a b".
Proof. reflexivity. Qed.
(** * Further properties of the tools *)

Section Further.

Context (yaml_safe_load : string -> outcome pyval)
        (yaml_dump : pyval -> option bool -> string)
        (json_loads : string -> outcome pyval)
        (json_dumps : pyval -> nat -> string)
        (text_embedding : string -> bool -> outcome (list float))
        (np_array : pyval -> outcome (list float))
        (rglob : string -> list Path)
        (format_score : float -> string).

Local Abbreviation parse_ymj := (Tools.parse_ymj yaml_safe_load json_loads).
Local Abbreviation rebuild := (Tools.rebuild yaml_dump json_dumps).
Local Abbreviation process_file :=
  (Tools.process_file yaml_safe_load yaml_dump json_loads json_dumps text_embedding).
Local Abbreviation batch :=
  (Tools.batch yaml_safe_load yaml_dump json_loads json_dumps text_embedding).
Local Abbreviation extract_embedding := (Tools.extract_embedding json_loads).
Local Abbreviation score_all := (Tools.score_all json_loads np_array).
Local Abbreviation ranked := (Tools.ranked json_loads text_embedding np_array rglob).
Local Abbreviation search :=
  (Tools.search json_loads text_embedding np_array rglob format_score).
Local Abbreviation validate_file := (Tools.validate_file yaml_safe_load json_loads).
Local Abbreviation validate_all := (Tools.validate_all yaml_safe_load json_loads).
Local Abbreviation validate_main := (Tools.validate_main yaml_safe_load json_loads).
Local Abbreviation already_embedded := Tools.already_embedded.
Local Abbreviation new_footer := Tools.new_footer.
Local Abbreviation cosine_similarity := Tools.cosine_similarity.

(** ** What [process_file] does to the world *)

(** The runs of [process_file], with a write that goes through: either
    no file was touched, or the call returned [True] after one question
    to the model and one write to its own path. *)
Lemma process_file_cases (w : world) (path : Path) (use_gpu force : bool) :
  let result := process_file path use_gpu force w in
  (files (snd result) = files w
   /\ writes (snd result) = writes w
   /\ (provider_calls (snd result) = provider_calls w
       \/ exists full_text e,
            provider_calls (snd result) = appended (provider_calls w) full_text
            /\ fst result = Raise e))
  \/ (fst result = Ok true
      /\ exists text full_text,
           files (snd result) = store (path_str path) (Ok text) (files w)
           /\ writes (snd result) = appended (writes w) (path_str path, text)
           /\ provider_calls (snd result) = appended (provider_calls w) full_text).
Proof.
  cbv zeta.
  unfold Tools.process_file, bind, read_text, lift, Tools.embed_text, raise, ret,
    print, print_end, eprint, write_text.
  destruct (read w path) as [content|e]; [|left; world_fields; auto].
  destruct (parse_ymj content) as [[[header markdown] footer]|e];
    [|destruct (is_ValueError e); left; world_fields; auto].
  destruct (already_embedded footer force) as [[|]|e];
    [left; world_fields; auto| |left; world_fields; auto].
  world_fields.
  destruct (text_embedding _ use_gpu) as [embedding|e];
    [|left; world_fields; split; [reflexivity|split; [reflexivity|right; do 2 eexists; split; reflexivity]]].
  destruct (get header "tags" (PList [])) as [tags|e];
    [|left; world_fields; split; [reflexivity|split; [reflexivity|right; do 2 eexists; split; reflexivity]]].
  destruct (get header "title" (PStr (path_stem path))) as [title|e];
    [|left; world_fields; split; [reflexivity|split; [reflexivity|right; do 2 eexists; split; reflexivity]]].
  right. world_fields. split; [reflexivity|].
  do 2 eexists. repeat split.
Qed.

(** What the value returned by [process_file] tells. [False] is
    returned only for a file that does not parse: nothing was written
    and the model was not asked. [True] is returned either after the
    skip notice alone, with nothing written and the model not asked, or
    after one question to the model and one write, to the path of the
    call. A call that raises returns no value and is not spoken of. *)
Theorem process_file_return_value (w w' : world) (path : Path)
    (use_gpu force ok : bool) :
  process_file path use_gpu force w = (Ok ok, w') ->
  (files w' = files w /\ writes w' = writes w /\ provider_calls w' = provider_calls w)
  \/ (ok = true
      /\ exists text full_text,
           files w' = store (path_str path) (Ok text) (files w)
           /\ writes w' = appended (writes w) (path_str path, text)
           /\ provider_calls w' = appended (provider_calls w) full_text).
Proof.
  intros H.
  pose proof (process_file_cases w path use_gpu force) as Hc. cbv zeta in Hc.
  rewrite H in Hc. cbn [fst snd] in Hc.
  destruct Hc as [(Hf & Hw & [Hp|(full_text & e & _ & He)])|(Hok & Hex)].
  - left. now repeat split.
  - discriminate He.
  - right. split; [now inversion Hok|exact Hex].
Qed.

Lemma assoc_store_other {V : Type} (key other : string) (v : V) (l : list (string * V)) :
  other <> key -> assoc other (store key v l) = assoc other l.
Proof.
  intros Hne. induction l as [|[k v'] l IH]; cbn [store assoc].
  - destruct (String.eqb other key) eqn:E; [|reflexivity].
    apply String.eqb_eq in E. contradiction.
  - destruct (String.eqb key k) eqn:E; cbn [assoc].
    + apply String.eqb_eq in E. subst k.
      destruct (String.eqb other key) eqn:E'; [|reflexivity].
      apply String.eqb_eq in E'. contradiction.
    + now rewrite IH.
Qed.

(** [process_file] leaves every other file as it was. *)
Theorem process_file_leaves_other_files (w : world) (path other : Path)
    (use_gpu force : bool) :
  path_str other <> path_str path ->
  read (snd (process_file path use_gpu force w)) other = read w other.
Proof.
  intros Hne. unfold read.
  destruct (process_file_cases w path use_gpu force) as [(Hf & _)|(_ & text & t & Hf & _)];
    rewrite Hf; [reflexivity|].
  now rewrite assoc_store_other.
Qed.

(** A footer that is a mapping whose [index] mapping has the key
    [embedding], whatever its value, makes [process_file] without
    [force] print the notice and return [True]: the model is not asked
    and nothing is written. The header is not looked at. *)
Theorem embedded_file_is_skipped (w : world) (path : Path) (use_gpu : bool)
    (content : string) (header : pyval) (markdown : string)
    (fd index : list (pyval * pyval)) (v : pyval) :
  read w path = Ok content ->
  parse_ymj content = Ok (header, markdown, PDict fd) ->
  lookup "index" fd = Some (PDict index) ->
  lookup "embedding" index = Some v ->
  process_file path use_gpu false w
  = (Ok true,
     said (("Skipping " ++ path_str path ++ " (already embedded, use --force to re-embed)") ++ nl) w).
Proof.
  intros Hr Hp Hi He.
  unfold Tools.process_file, bind, read_text, lift. rewrite Hr, Hp.
  assert (Ht : already_embedded (PDict fd) false = Ok true).
  { unfold Tools.already_embedded.
    destruct fd as [|kv fd]; [discriminate|].
    cbn [truthy negb contains obind getitem]. rewrite Hi.
    cbn [negb obind contains]. now rewrite He. }
  rewrite Ht. reflexivity.
Qed.

(** A header that is not a mapping is found out too late: the model is
    asked for the embedding, then [header.get] raises [AttributeError];
    the file is not written. *)
Theorem other_header_fails_after_embedding (w : world) (path : Path) (use_gpu force : bool)
    (content : string) (header : pyval) (markdown : string) (footer : pyval)
    (embedding : list float) :
  read w path = Ok content ->
  parse_ymj content = Ok (header, markdown, footer) ->
  is_dict header = false ->
  already_embedded footer force = Ok false ->
  text_embedding (yaml_dump header None ++ nl ++ markdown) use_gpu = Ok embedding ->
  process_file path use_gpu force w
  = (Raise (AttributeError "object has no attribute 'get'"),
     provider_called (yaml_dump header None ++ nl ++ markdown)
       (said (("Embedding " ++ path_str path ++ "...") ++ " ") w)).
Proof.
  intros Hr Hp Hd Ht He.
  unfold Tools.process_file, bind, read_text, lift, Tools.embed_text.
  rewrite Hr, Hp, Ht. cbn [print_end fst snd]. rewrite He.
  destruct header; try discriminate; reflexivity.
Qed.

(** ** The tally of the batch *)

(** The count [main] prints never exceeds the number of [.ymj] files
    given, and every file written was counted. *)
Theorem batch_tally_bounds (use_gpu force : bool) (paths : list Path) :
  forall (success m : nat) (w w' : world),
    batch paths use_gpu force success w = (Ok m, w') ->
    success <= m
    /\ m <= success + List.length (filter is_ymj paths)
    /\ List.length (writes w') <= List.length (writes w) + (m - success).
Proof.
  induction paths as [|path paths IH]; intros success m w w' H.
  - inversion H; subst. cbn [filter List.length]. lia.
  - cbn [Tools.batch filter] in H |- *. unfold is_ymj at 1.
    destruct (String.eqb (path_suffix path) ".ymj") eqn:Hs; cbn [negb] in H.
    + unfold bind at 1 in H.
      pose proof (process_file_cases w path use_gpu force) as Hc. cbv zeta in Hc.
      destruct (process_file path use_gpu force w) as [[ok|e] w1]; [|discriminate].
      cbn [fst snd] in Hc. apply IH in H as (H1 & H2 & H3). cbn [List.length].
      destruct Hc as [(_ & Hw & _)|(Hok & text & t & _ & Hw & _)].
      * rewrite Hw in H3. destruct ok; lia.
      * inversion Hok; subst ok. rewrite Hw in H3. unfold appended in H3.
        rewrite List.length_app in H3. cbn [List.length] in H3. lia.
    + unfold bind at 1, print, print_end in H.
      apply IH in H as (H1 & H2 & H3). world_fields_in H3. lia.
Qed.

(** ** Search *)

(** The loop of [search] never changes the world. *)
Lemma score_all_world (query_embedding : list float) (paths : list Path) :
  forall (results : list (Path * float)) (w : world),
    snd (score_all query_embedding paths results w) = w.
Proof.
  induction paths as [|path paths IH]; intros results w; [reflexivity|].
  cbn [Tools.score_all]. unfold bind, read_text, lift.
  destruct (read w path) as [content|]; [|reflexivity].
  destruct (extract_embedding content) as [embedding|]; [|reflexivity].
  destruct (Tools.is_None embedding); [apply IH|].
  destruct (np_array embedding) as [doc|]; [|reflexivity].
  destruct (cosine_similarity query_embedding doc) as [score|]; [|reflexivity].
  apply IH.
Qed.

(** Every entry the loop adds is for a listed path, one at most per
    path. *)
Lemma score_all_listed (query_embedding : list float) (paths : list Path) :
  forall (results out : list (Path * float)) (w w' : world),
    score_all query_embedding paths results w = (Ok out, w') ->
    List.length out <= List.length results + List.length paths
    /\ forall x, In x out -> In x results \/ In (fst x) paths.
Proof.
  induction paths as [|path paths IH]; intros results out w w' H.
  - inversion H; subst. split; [cbn; lia|auto].
  - cbn [Tools.score_all] in H. unfold bind, read_text, lift in H.
    destruct (read w path) as [content|]; [|discriminate].
    destruct (extract_embedding content) as [embedding|]; [|discriminate].
    destruct (Tools.is_None embedding).
    + apply IH in H as [Hl Hin]. split; [cbn [List.length]; lia|].
      intros x Hx. destruct (Hin x Hx); [now left|right; now right].
    + destruct (np_array embedding) as [doc|]; [|discriminate].
      destruct (cosine_similarity query_embedding doc) as [score|]; [|discriminate].
      apply IH in H as [Hl Hin]. unfold appended in *. rewrite List.length_app in Hl.
      cbn [List.length] in *. split; [lia|].
      intros x Hx. destruct (Hin x Hx) as [Hx'|Hx']; [|right; now right].
      apply in_app_or in Hx' as [Hx'|[<-|[]]]; [now left|right; now left].
Qed.

Lemma print_results_frame (shown : list (Path * float)) :
  forall w : world,
    let result := Tools.print_results format_score shown w in
    files (snd result) = files w
    /\ writes (snd result) = writes w
    /\ provider_calls (snd result) = provider_calls w.
Proof.
  induction shown as [|[path score] shown IH]; intros w; cbv zeta; [now repeat split|].
  cbn [Tools.print_results]. unfold bind, print, print_end.
  apply (IH (said (("[" ++ format_score score ++ "] " ++ path_str path) ++ nl) w)).
Qed.


(** With a count that is not negative, [search] shows at most that many
    entries, at most one per path of the walk, and only paths of the
    walk. *)
Theorem ranked_at_most_top_k (w w' : world) (query directory : string) (top_k : Z)
    (use_gpu : bool) (out : list (Path * float)) :
  ranked query directory top_k use_gpu w = (Ok out, w') ->
  (0 <= top_k)%Z ->
  List.length out <= Z.to_nat top_k
  /\ List.length out <= List.length (rglob directory)
  /\ forall x, In x out -> In (fst x) (rglob directory).
Proof.
  intros Hrun Hk.
  unfold Tools.ranked, bind, eprint, Tools.embed_query, ret in Hrun.
  destruct (text_embedding query use_gpu) as [query_embedding|]; [|discriminate].
  destruct (score_all query_embedding (rglob directory) [] _) as [[results|] w1] eqn:Hs;
    [|discriminate].
  inversion Hrun; subst out w'. clear Hrun.
  apply score_all_listed in Hs as [Hl Hin]. cbn [List.length] in Hl.
  unfold upto. replace (top_k <? 0)%Z with false by (symmetry; apply Z.ltb_ge; lia).
  assert (Hlen : List.length (Tools.rank results) = List.length results).
  { symmetry. apply Permutation_length. apply sort_by_perm. }
  repeat split.
  - rewrite List.length_firstn. lia.
  - rewrite List.length_firstn. lia.
  - intros x Hx. apply in_firstn in Hx.
    apply (Permutation_in _ (Permutation_sym (sort_by_perm _ results))) in Hx.
    now destruct (Hin x Hx) as [[]|].
Qed.

(** A stored vector whose length differs from the query vector's stops
    the whole search: [np.dot] raises [ValueError] and the paths after
    this one are never read. *)
Theorem mismatched_vector_aborts_search (w : world) (query_embedding : list float)
    (path : Path) (paths : list Path) (results : list (Path * float))
    (content : string) (embedding : pyval) (doc : list float) :
  read w path = Ok content ->
  extract_embedding content = Ok embedding ->
  Tools.is_None embedding = false ->
  np_array embedding = Ok doc ->
  List.length query_embedding <> List.length doc ->
  score_all query_embedding (path :: paths) results w
  = (Raise (ValueError "shapes not aligned"), w).
Proof.
  intros Hr He Hn Ha Hlen.
  cbn [Tools.score_all]. unfold bind, read_text, lift.
  rewrite Hr, He, Hn, Ha. unfold Tools.cosine_similarity, dot.
  apply Nat.eqb_neq in Hlen. now rewrite Hlen.
Qed.

(** A footer block that decodes to something other than a mapping, or
    whose [index] entry is not a mapping, makes [extract_embedding] raise
    [AttributeError]: only [JSONDecodeError] is caught. *)
Theorem extract_embedding_raises_on_other_shape (content : string) (start : nat)
    (group1 : string) (data : pyval) :
  re_search content = Some (start, group1) ->
  json_loads group1 = Ok data ->
  is_dict data = false
  \/ (exists d index, data = PDict d /\ lookup "index" d = Some index
                      /\ is_dict index = false) ->
  extract_embedding content = Raise (AttributeError "object has no attribute 'get'").
Proof.
  intros Hs Hj Hshape. unfold Tools.extract_embedding. rewrite Hs, Hj. cbn [obind].
  destruct Hshape as [Hd|(d & index & -> & Hi & Hd)].
  - destruct data; try discriminate; reflexivity.
  - cbn [get obind]. rewrite Hi. destruct index; try discriminate; reflexivity.
Qed.

(** The score does not depend on the order of its two arguments. *)
Theorem cosine_similarity_sym (a b : list float) :
  cosine_similarity a b = cosine_similarity b a.
Proof.
  unfold Tools.cosine_similarity, dot.
  rewrite (Nat.eqb_sym (List.length a) (List.length b)).
  destruct (Nat.eqb (List.length b) (List.length a)); [|reflexivity].
  cbn [obind]. now rewrite (products_comm a b), (mul_comm (norm a) (norm b)).
Qed.

(** ** Parsing *)

(** The markdown [parse_ymj] returns has no white space at either end:
    stripping it again changes nothing. *)
Theorem parse_ymj_markdown_is_stripped (content : string) (header : pyval)
    (markdown : string) (footer : pyval) :
  parse_ymj content = Ok (header, markdown, footer) ->
  strip markdown = markdown.
Proof.
  unfold Tools.parse_ymj.
  destruct (negb (startswith content "---")); [discriminate|].
  destruct (find content "---" 3 =? -1)%Z; [discriminate|].
  destruct (yaml_safe_load _) as [h|]; [|discriminate]. cbn [obind].
  destruct (re_search _) as [[start group1]|].
  - destruct (json_loads group1) as [f|]; [|discriminate]. cbn [obind].
    intros H. inversion H. apply strip_idem.
  - intros H. inversion H. apply strip_idem.
Qed.

(** ** Validation *)

(** The footer checks only ever add to the errors found so far. *)
Lemma check_footer_extends (footer : pyval) (strict : bool) (errors out : list string) :
  Tools.check_footer footer strict errors = Ok out ->
  exists more, out = (errors ++ more)%list.
Proof.
  unfold Tools.check_footer, appended.
  destruct (contains "schema" footer) as [has_schema|]; [|discriminate]. cbn [obind].
  destruct (contains "index" footer) as [has_index|]; [|discriminate]. cbn [obind].
  destruct has_index; cbn [negb].
  - destruct (get footer "index" (PDict [])) as [index|]; [|discriminate]. cbn [obind].
    destruct (contains "embedding" index) as [has_embedding|]; [|discriminate]. cbn [obind].
    destruct has_schema, has_embedding, strict; cbn [negb]; intros H; inversion H;
      rewrite <- ?List.app_assoc;
      first [ now eexists | exists []; symmetry; apply List.app_nil_r ].
  - destruct has_schema; cbn [negb]; intros H; inversion H;
      rewrite <- ?List.app_assoc; now eexists.
Qed.

(** What a file with no error looks like. *)
Lemma validate_ok_inv (w : world) (path : Path) (strict : bool) :
  validate_file w path strict = Ok [] ->
  exists content d,
    read w path = Ok content
    /\ startswith content "---" = true
    /\ (find content "---" 3 =? -1)%Z = false
    /\ yaml_safe_load (strip (slice 3 (Z.to_nat (find content "---" 3)) content)) = Ok (PDict d)
    /\ lookup "doc_type" d <> None
    /\ lookup "title" d <> None
    /\ match re_search (drop (Z.to_nat (find content "---" 3) + 3) content) with
       | Some (_, group1) =>
           exists footer, json_loads group1 = Ok footer
                          /\ Tools.check_footer footer strict [] = Ok []
       | None => strict = false
       end.
Proof using yaml_safe_load json_loads.
  unfold Tools.validate_file.
  destruct (read w path) as [content|]; [|discriminate].
  destruct (startswith content "---") eqn:Hs; cbn [negb]; [|discriminate].
  destruct (find content "---" 3 =? -1)%Z eqn:Hf; [discriminate|].
  destruct (yaml_safe_load _) as [header|e] eqn:Hy;
    [|destruct (is_YAMLError e); discriminate].
  destruct header; cbn [is_dict negb]; try discriminate.
  cbn [contains obind].
  intros H. exists content, d.
  assert (Hfields : lookup "doc_type" d <> None /\ lookup "title" d <> None
                    /\ match re_search (drop (Z.to_nat (find content "---" 3) + 3) content) with
                       | Some (_, group1) =>
                           exists footer, json_loads group1 = Ok footer
                                          /\ Tools.check_footer footer strict [] = Ok []
                       | None => strict = false
                       end).
  { destruct (re_search _) as [[start group1]|].
    - destruct (json_loads group1) as [footer|e].
      + destruct (check_footer_extends _ _ _ _ H) as [more Hmore].
        destruct (lookup "doc_type" d), (lookup "title" d); cbn [negb] in H |- *;
          unfold appended in H |- *; try discriminate.
        repeat split; try discriminate. now exists footer.
      + destruct (is_JSONDecodeError e); [|discriminate].
        inversion H as [H']. now apply appended_not_nil in H'.
    - destruct strict.
      + inversion H as [H']. now apply appended_not_nil in H'.
      + destruct (lookup "doc_type" d), (lookup "title" d); cbn [negb] in H |- *;
          unfold appended in H |- *; try discriminate.
        repeat split; discriminate. }
  destruct Hfields as (Hd & Ht & Hfoot).
  repeat split; assumption.
Qed.

(** A file in which [validate_file] finds no error is one [parse_ymj]
    accepts, with a mapping as header that holds [doc_type] and
    [title]. *)
Theorem valid_file_parses (w : world) (path : Path) (strict : bool) (content : string) :
  validate_file w path strict = Ok [] ->
  read w path = Ok content ->
  exists d markdown footer,
    parse_ymj content = Ok (PDict d, markdown, footer)
    /\ lookup "doc_type" d <> None
    /\ lookup "title" d <> None.
Proof.
  intros Hv Hr.
  destruct (validate_ok_inv _ _ _ Hv) as (content' & d & Hr' & Hs & Hf & Hy & Hd & Ht & Hfoot).
  rewrite Hr in Hr'. inversion Hr'; subst content'.
  unfold Tools.parse_ymj. rewrite Hs, Hf, Hy. cbn [negb obind].
  destruct (re_search _) as [[start group1]|].
  - destruct Hfoot as (footer & -> & _). cbn [obind]. eauto 6.
  - eauto 6.
Qed.

(** A footer that passes the strict checks is one the test of line 75
    takes for embedded. *)
Lemma strict_footer_is_embedded (footer : pyval) :
  Tools.check_footer footer true [] = Ok [] ->
  already_embedded footer false = Ok true.
Proof.
  unfold Tools.check_footer, Tools.already_embedded.
  destruct footer as [|b|z|x|s|l|d]; cbn [contains obind]; try discriminate.
  - destruct (occurs "index" s); cbn [negb get obind]; [discriminate|].
    intros H. inversion H as [H']. now apply appended_not_nil in H'.
  - destruct (existsb (is_key "index") l); cbn [negb get obind]; [discriminate|].
    intros H. inversion H as [H']. now apply appended_not_nil in H'.
  - cbn [get getitem truthy].
    destruct (lookup "index" d) as [index|] eqn:Hi; cbn [negb obind].
    + destruct d as [|kv d]; [discriminate|]. cbn [negb obind].
      destruct (contains "embedding" index) as [[|]|]; cbn [negb obind]; try discriminate.
      * reflexivity.
      * intros H. inversion H as [H']. now apply appended_not_nil in H'.
    + intros H. inversion H as [H']. now apply appended_not_nil in H'.
Qed.

(** A file that passes strict validation is skipped by [process_file]
    without [force]: the model is not asked and nothing is written. *)
Theorem strictly_valid_file_is_skipped (w : world) (path : Path) (use_gpu : bool) :
  validate_file w path true = Ok [] ->
  process_file path use_gpu false w
  = (Ok true,
     said (("Skipping " ++ path_str path ++ " (already embedded, use --force to re-embed)") ++ nl) w).
Proof.
  intros Hv.
  destruct (validate_ok_inv _ _ _ Hv) as (content & d & Hr & Hs & Hf & Hy & _ & _ & Hfoot).
  unfold Tools.process_file, bind, read_text, lift. rewrite Hr.
  unfold Tools.parse_ymj. rewrite Hs, Hf, Hy. cbn [negb obind].
  destruct (re_search _) as [[start group1]|]; [|discriminate].
  destruct Hfoot as (footer & -> & Hc). cbn [obind].
  now rewrite (strict_footer_is_embedded _ Hc).
Qed.

(** Strictness only adds: a file with errors [e] in the default mode has,
    in strict mode, the same errors or the same followed by one more. *)
Theorem strict_mode_only_adds (w : world) (path : Path) (errors : list string) :
  validate_file w path false = Ok errors ->
  exists errors',
    validate_file w path true = Ok errors'
    /\ (errors' = errors \/ exists message, errors' = appended errors message).
Proof.
  unfold Tools.validate_file.
  destruct (read w path) as [content|]; [|mode_free].
  destruct (negb (startswith content "---")); [mode_free|].
  destruct (find content "---" 3 =? -1)%Z; [mode_free|].
  destruct (yaml_safe_load _) as [header|e]; [|destruct (is_YAMLError e); mode_free].
  destruct (negb (is_dict header)); [mode_free|].
  destruct (contains "doc_type" header) as [has_doc_type|]; [|mode_free]. cbn [obind].
  destruct (contains "title" header) as [has_title|]; [|mode_free]. cbn [obind].
  destruct (re_search _) as [[start group1]|]; [|mode_free].
  destruct (json_loads group1) as [footer|e]; [|destruct (is_JSONDecodeError e); mode_free].
  unfold Tools.check_footer.
  destruct (contains "schema" footer) as [has_schema|]; [|mode_free]. cbn [obind].
  destruct (contains "index" footer) as [has_index|]; [|mode_free]. cbn [obind].
  destruct (negb has_index); [mode_free|].
  destruct (get footer "index" (PDict [])) as [index|]; [|mode_free]. cbn [obind].
  destruct (contains "embedding" index) as [has_embedding|]; [|mode_free]. cbn [obind].
  destruct (negb has_embedding); mode_free.
Qed.

(** ** Embedding, then validating *)

Lemma read_said (text : string) (w : world) (path : Path) :
  read (said text w) path = read w path.
Proof. reflexivity. Qed.

(** The footer pattern on what [rebuild] lays out after the header. *)
Lemma re_search_rebuilt (markdown jd : string) :
  index_of fence_open markdown = None ->
  solid jd = true ->
  index_of fence_close jd = None ->
  re_search ((nl ++ nl ++ markdown)
             ++ String "010"%char (fence_open ++ nl ++ jd ++ fence_close ++ nl))
  = Some (String.length (nl ++ nl ++ markdown) + 1, jd).
Proof.
  intros Hmd Hsolid Hclose.
  rewrite re_search_before; [|reflexivity|].
  - rewrite re_search_unfold, match_here_block by assumption.
    cbn [shift]. now rewrite Nat.add_0_r.
  - cbn [nl append].
    do 2 (apply index_of_after_nl; [reflexivity|discriminate|]). assumption.
Qed.

(** The closing fence [rebuild] writes is the first one after the
    opening fence. *)
Lemma rebuilt_closing_fence (y x : string) :
  index_of "---" y = None ->
  index_of "---" ((nl ++ y ++ nl) ++ "---" ++ x) = Some (String.length (nl ++ y ++ nl)).
Proof.
  intros Hdash.
  replace ((nl ++ y ++ nl) ++ "---" ++ x)
    with ((nl ++ y) ++ String "010"%char ("---" ++ x))
    by (cbn [nl append]; now rewrite !app_assoc).
  rewrite index_of_before; [|reflexivity|discriminate|].
  - rewrite index_of_here. cbn [option_map]. f_equal.
    rewrite !length_app. cbn [nl String.length]. lia.
  - cbn [nl append]. apply index_of_after_nl; [reflexivity|discriminate|assumption].
Qed.

(** A file just embedded by [process_file] passes strict validation,
    when the rebuilt file reads back (the conditions of the round trip)
    and the header as loaded again holds [doc_type] and [title]. *)
Theorem embedded_file_validates_strictly (w : world) (path : Path) (use_gpu force : bool)
    (content : string) (d d' : list (pyval * pyval)) (markdown : string) (footer : pyval)
    (embedding : list float) (y : string) :
  let fresh :=
    new_footer (match lookup "tags" d with Some v => v | None => PList [] end)
               (match lookup "title" d with Some v => v | None => PStr (path_stem path) end)
               embedding in
  read w path = Ok content ->
  parse_ymj content = Ok (PDict d, markdown, footer) ->
  already_embedded footer force = Ok false ->
  text_embedding (yaml_dump (PDict d) None ++ nl ++ markdown) use_gpu = Ok embedding ->
  yaml_dump (PDict d) (Some false) = y ++ nl ->
  index_of "---" y = None ->
  index_of fence_open markdown = None ->
  solid (json_dumps fresh 2) = true ->
  index_of fence_close (json_dumps fresh 2) = None ->
  yaml_safe_load (strip (yaml_dump (PDict d) (Some false))) = Ok (PDict d') ->
  json_loads (json_dumps fresh 2) = Ok fresh ->
  lookup "doc_type" d' <> None ->
  lookup "title" d' <> None ->
  validate_file (snd (process_file path use_gpu force w)) path true = Ok [].
Proof.
  intros fresh Hr Hp Ht He Hy Hdash Hmd Hsolid Hclose Hh Hj Hd Htitle.
  rewrite (process_file_embeds yaml_safe_load yaml_dump json_loads json_dumps text_embedding
             _ _ _ _ _ _ _ _ _ Hr Hp Ht He).
  cbn [snd]. fold fresh.
  set (w1 := provider_called _ _).
  assert (Hread : read (said ("done" ++ nl) (wrote path (rebuild (PDict d) markdown fresh) w1)) path
                  = Ok ("---" ++ (nl ++ yaml_dump (PDict d) (Some false)) ++ "---"
                        ++ (nl ++ nl ++ markdown)
                        ++ String "010"%char
                             (fence_open ++ nl ++ json_dumps fresh 2 ++ fence_close ++ nl))).
  { rewrite read_said, read_wrote. f_equal. apply rebuild_layout. }
  rewrite (validate_file_fenced yaml_safe_load json_loads _ _ _ _ _ d' Hread).
  - cbv zeta. rewrite (re_search_rebuilt _ _ Hmd Hsolid Hclose), Hj.
    destruct (lookup "doc_type" d'); [|contradiction].
    destruct (lookup "title" d'); [|contradiction].
    reflexivity.
  - rewrite Hy. apply rebuilt_closing_fence. assumption.
  - now rewrite strip_nl_l.
Qed.

(** ** The exit status of validation *)

Lemma print_errors_frame (errors : list string) :
  forall w : world,
    fst (Tools.print_errors errors w) = Ok tt
    /\ files (snd (Tools.print_errors errors w)) = files w.
Proof.
  induction errors as [|error errors IH]; intros w; [now split|].
  cbn [Tools.print_errors]. unfold bind, print, print_end.
  apply (IH (said (("  - " ++ error) ++ nl) w)).
Qed.

(** [validate_file] depends on the files only. *)
Lemma validate_file_files (w1 w2 : world) (path : Path) (strict : bool) :
  files w1 = files w2 -> validate_file w1 path strict = validate_file w2 path strict.
Proof. intros H. unfold Tools.validate_file, read. now rewrite H. Qed.

Lemma validate_all_spec (strict : bool) (paths : list Path) :
  forall (all_valid result : bool) (w w' : world),
    validate_all paths strict all_valid w = (Ok result, w') ->
    files w' = files w
    /\ (result = true <->
        all_valid = true
        /\ Forall (fun path => is_ymj path = true -> validate_file w path strict = Ok []) paths).
Proof.
  induction paths as [|path paths IH]; intros all_valid result w w' H.
  - inversion H; subst. split; [reflexivity|]. split; [now split|tauto].
  - cbn [Tools.validate_all] in H.
    assert (Hsame : forall (w1 : world), files w1 = files w ->
              Forall (fun p => is_ymj p = true -> validate_file w1 p strict = Ok []) paths
              <-> Forall (fun p => is_ymj p = true -> validate_file w p strict = Ok []) paths).
    { intros w1 Hf. rewrite !Forall_forall.
      split; intros Hall p Hin Hy; specialize (Hall p Hin Hy);
        [rewrite <- (validate_file_files w1 w p strict Hf)
        |rewrite (validate_file_files w1 w p strict Hf)]; exact Hall. }
    destruct (String.eqb (path_suffix path) ".ymj") eqn:Hs; cbn [negb] in H.
    + unfold bind at 1 in H.
      destruct (validate_file w path strict) as [errors|e] eqn:Hv; [|discriminate].
      destruct errors as [|error errors].
      * unfold bind at 1, print, print_end in H.
        apply IH in H as [Hf Hres]. world_fields_in Hf. split; [exact Hf|].
        rewrite Hres, (Hsame _ eq_refl), Forall_cons_iff. unfold is_ymj at 2. rewrite Hs.
        tauto.
      * unfold bind at 1, print, print_end in H. unfold bind at 1 in H.
        destruct (print_errors_frame (error :: errors)
                    (said ((Tools.cross_mark ++ " " ++ path_str path ++ ":") ++ nl) w))
          as [Hok Hfiles].
        destruct (Tools.print_errors (error :: errors) _) as [[[]|] w1];
          cbn [fst snd] in Hok, Hfiles; [|discriminate].
        world_fields_in Hfiles.
        apply IH in H as [Hf Hres]. split; [congruence|].
        rewrite Hres, Forall_cons_iff. unfold is_ymj at 2. rewrite Hs.
        split; [intros [Hfalse _]; discriminate|].
        intros [_ [Hpath _]]. specialize (Hpath eq_refl). rewrite Hv in Hpath. discriminate.
    + unfold bind at 1, print, print_end in H.
      apply IH in H as [Hf Hres]. world_fields_in Hf. split; [exact Hf|].
      rewrite Hres, (Hsame _ eq_refl), Forall_cons_iff. unfold is_ymj at 2. rewrite Hs.
      split.
      * intros [Ha Hall]. split; [assumption|]. split; [discriminate|assumption].
      * intros [Ha [_ Hall]]. now split.
Qed.

(** When [main] of the validator reaches [sys.exit], the status is 0 or
    1, and it is 0 exactly when [validate_file] found no error in any of
    the [.ymj] files given; files with another suffix do not count. No
    file is changed. *)
Theorem validate_main_exit_status (w w' : world) (paths : list Path) (strict : bool)
    (status : Z) :
  validate_main paths strict w = (Ok status, w') ->
  (status = 0%Z \/ status = 1%Z)
  /\ (status = 0%Z <->
      Forall (fun path => is_ymj path = true -> validate_file w path strict = Ok []) paths)
  /\ files w' = files w.
Proof.
  unfold Tools.validate_main, bind, ret. intros H.
  destruct (validate_all paths strict true w) as [[all_valid|] w1] eqn:Hall; [|discriminate].
  inversion H; subst. clear H.
  apply validate_all_spec in Hall as [Hf Hres].
  split; [destruct all_valid; auto|]. split; [|exact Hf].
  destruct all_valid.
  - split; [intros _; now apply Hres|reflexivity].
  - split; [discriminate|]. intros Hall.
    assert (false = true) by (apply Hres; now split). discriminate.
Qed.

(** ** An embedding that is [null] *)

(** A document whose footer holds [index.embedding] with the value
    [null], and whose header text holds no fence opener, is stuck:
    [process_file] without [force] skips it as already embedded, and
    [extract_embedding] finds no embedding in it, so [search] never ranks
    it. *)
Theorem null_embedding_is_skipped_and_unranked (w : world) (path : Path) (use_gpu : bool)
    (a x : string) (header : pyval) (start : nat) (group1 : string)
    (fd index : list (pyval * pyval)) :
  read w path = Ok ("---" ++ a ++ "---" ++ x) ->
  index_of "---" (a ++ "---" ++ x) = Some (String.length a) ->
  index_of fence_open a = None ->
  yaml_safe_load (strip a) = Ok header ->
  re_search x = Some (start, group1) ->
  json_loads group1 = Ok (PDict fd) ->
  lookup "index" fd = Some (PDict index) ->
  lookup "embedding" index = Some PNone ->
  process_file path use_gpu false w
  = (Ok true,
     said (("Skipping " ++ path_str path ++ " (already embedded, use --force to re-embed)") ++ nl) w)
  /\ extract_embedding ("---" ++ a ++ "---" ++ x) = Ok PNone.
Proof.
  intros Hr Ha Hopen Hh Hx Hj Hi He. split.
  - unfold Tools.process_file, bind, read_text, lift. rewrite Hr.
    rewrite (parse_ymj_fenced yaml_safe_load json_loads _ _ Ha), Hh. cbn [obind].
    rewrite Hx, Hj. cbn [obind].
    assert (Ht : already_embedded (PDict fd) false = Ok true).
    { unfold Tools.already_embedded.
      destruct fd as [|kv fd]; [discriminate|].
      cbn [truthy negb contains obind getitem]. rewrite Hi.
      cbn [negb obind contains]. now rewrite He. }
    now rewrite Ht.
  - unfold Tools.extract_embedding.
    rewrite (re_search_fenced _ _ Hopen), Hx. cbn [shift]. rewrite Hj.
    cbn [obind get]. rewrite Hi. cbn [obind get]. now rewrite He.
Qed.


End Further.

(** * Examples for the further properties *)

(** A document without footer is embedded: [True], one question, one
    write. *)
Lemma process_file_return_value_witness :
  let text := "---" ++ nl ++ Sample.header_yaml ++ nl ++ "---" ++ nl ++ "body" in
  let w := Sample.world_of [("n.ymj", text)] in
  let w' := snd (Tools.process_file Sample.yaml_safe_load Sample.yaml_dump Sample.json_loads
                   Sample.json_dumps Sample.unit_provider (Sample.ymj "n") false false w) in
  (files w' = files w /\ writes w' = writes w /\ provider_calls w' = provider_calls w)
  \/ (true = true
      /\ exists text' full_text,
           files w' = store "n.ymj" (Ok text') (files w)
           /\ writes w' = appended (writes w) ("n.ymj", text')
           /\ provider_calls w' = appended (provider_calls w) full_text).
Proof.
  cbv zeta.
  apply (process_file_return_value Sample.yaml_safe_load Sample.yaml_dump Sample.json_loads
           Sample.json_dumps Sample.unit_provider
           (Sample.world_of
              [("n.ymj", "---" ++ nl ++ Sample.header_yaml ++ nl ++ "---" ++ nl ++ "body")])
           _ (Sample.ymj "n") false false true).
  reflexivity.
Defined.

(** Two files; embedding the first leaves the second as it was. *)
Lemma process_file_leaves_other_files_witness :
  let text := "---" ++ nl ++ Sample.header_yaml ++ nl ++ "---" ++ nl ++ "body" in
  let w := Sample.world_of [("n.ymj", text); ("m.ymj", text)] in
  read (snd (Tools.process_file Sample.yaml_safe_load Sample.yaml_dump Sample.json_loads
               Sample.json_dumps Sample.unit_provider (Sample.ymj "n") false false w))
       (Sample.ymj "m")
  = read w (Sample.ymj "m").
Proof.
  cbv zeta.
  apply (process_file_leaves_other_files Sample.yaml_safe_load Sample.yaml_dump
           Sample.json_loads Sample.json_dumps Sample.unit_provider).
  discriminate.
Defined.

(** An embedded document is skipped. *)
Lemma embedded_file_is_skipped_witness :
  let w := Sample.world_of [("n.ymj", Sample.document "body" "1.0")] in
  Tools.process_file Sample.yaml_safe_load Sample.yaml_dump Sample.json_loads
    Sample.json_dumps Sample.unit_provider (Sample.ymj "n") false false w
  = (Ok true,
     said (("Skipping " ++ "n.ymj" ++ " (already embedded, use --force to re-embed)") ++ nl) w).
Proof.
  cbv zeta.
  eapply (embedded_file_is_skipped Sample.yaml_safe_load Sample.yaml_dump Sample.json_loads
            Sample.json_dumps Sample.unit_provider
            (Sample.world_of [("n.ymj", Sample.document "body" "1.0")]) (Sample.ymj "n") false
            (Sample.document "body" "1.0") Sample.header "body");
    reflexivity.
Defined.

(** A header that is the list [- a]. *)
Lemma other_header_fails_after_embedding_witness :
  let text := "---" ++ nl ++ "- a" ++ nl ++ "---" ++ nl ++ "body" in
  let w := Sample.world_of [("n.ymj", text)] in
  Tools.process_file Sample.yaml_safe_load Sample2.yaml_dump Sample.json_loads
    Sample.json_dumps Sample.unit_provider (Sample.ymj "n") false false w
  = (Raise (AttributeError "object has no attribute 'get'"),
     provider_called (("- a" ++ nl) ++ nl ++ "body")
       (said (("Embedding " ++ "n.ymj" ++ "...") ++ " ") w)).
Proof.
  cbv zeta.
  eapply (other_header_fails_after_embedding Sample.yaml_safe_load Sample2.yaml_dump
            Sample.json_loads Sample.json_dumps Sample.unit_provider
            (Sample.world_of [("n.ymj", "---" ++ nl ++ "- a" ++ nl ++ "---" ++ nl ++ "body")])
            (Sample.ymj "n") false false
            ("---" ++ nl ++ "- a" ++ nl ++ "---" ++ nl ++ "body")
            (PList [PStr "a"]) "body" PNone);
    reflexivity.
Defined.

(** A file without header, a file to embed and a file with another
    suffix: one success out of two [.ymj] files, one write. *)
Lemma batch_tally_bounds_witness :
  let text := "---" ++ nl ++ Sample.header_yaml ++ nl ++ "---" ++ nl ++ "body" in
  let w := Sample.world_of [("bad.ymj", "no header"); ("n.ymj", text)] in
  let paths := [Sample.ymj "bad"; Sample.ymj "n"; mkPath "readme.md" "readme" ".md"] in
  let w' := snd (Tools.batch Sample.yaml_safe_load Sample.yaml_dump Sample.json_loads
                   Sample.json_dumps Sample.unit_provider paths false false 0 w) in
  0 <= 1
  /\ 1 <= 0 + List.length (filter is_ymj paths)
  /\ List.length (writes w') <= List.length (writes w) + (1 - 0).
Proof.
  cbv zeta.
  apply (batch_tally_bounds Sample.yaml_safe_load Sample.yaml_dump Sample.json_loads
           Sample.json_dumps Sample.unit_provider false false
           [Sample.ymj "bad"; Sample.ymj "n"; mkPath "readme.md" "readme" ".md"] 0 1
           (Sample.world_of
              [("bad.ymj", "no header");
               ("n.ymj", "---" ++ nl ++ Sample.header_yaml ++ nl ++ "---" ++ nl ++ "body")])).
  reflexivity.
Defined.

(** One embedded document and one without footer, ten entries asked. *)
Lemma ranked_at_most_top_k_witness :
  let plain := "---" ++ nl ++ Sample.header_yaml ++ nl ++ "---" ++ nl ++ "body" in
  let walk := fun _ : string => [Sample.ymj "a"; Sample.ymj "c"] in
  let out := [(Sample.ymj "a", 1%float)] in
  List.length out <= Z.to_nat 10
  /\ List.length out <= List.length (walk "docs")
  /\ forall x, In x out -> In (fst x) (walk "docs").
Proof.
  cbv zeta.
  eapply (ranked_at_most_top_k Sample.json_loads Sample.unit_provider Sample.np_array
            (fun _ : string => [Sample.ymj "a"; Sample.ymj "c"])
            (Sample.world_of
               [("a.ymj", Sample.document "body" "1.0");
                ("c.ymj", "---" ++ nl ++ Sample.header_yaml ++ nl ++ "---" ++ nl ++ "body")])
            _ "q" "docs" 10 false).
  - reflexivity.
  - lia.
Defined.

(** A stored vector of two components against a query vector of one. *)
Lemma mismatched_vector_aborts_search_witness :
  let w := Sample.world_of
             [("p.ymj", Sample2.document "body" Sample2.pair_footer_json);
              ("a.ymj", Sample.document "body" "1.0")] in
  Tools.score_all Sample2.json_loads Sample.np_array [1%float]
    [Sample.ymj "p"; Sample.ymj "a"] [] w
  = (Raise (ValueError "shapes not aligned"), w).
Proof.
  cbv zeta.
  eapply (mismatched_vector_aborts_search Sample2.json_loads Sample.np_array
            (Sample.world_of
               [("p.ymj", Sample2.document "body" Sample2.pair_footer_json);
                ("a.ymj", Sample.document "body" "1.0")])
            [1%float] (Sample.ymj "p") [Sample.ymj "a"] []
            (Sample2.document "body" Sample2.pair_footer_json)
            (PList [PFloat 1%float; PFloat 0%float]) [1%float; 0%float]);
    try reflexivity.
  discriminate.
Defined.

(** A footer block that reads [null]. *)
Lemma extract_embedding_raises_on_other_shape_witness :
  Tools.extract_embedding Sample.json_loads ("```json" ++ nl ++ "null" ++ nl ++ "```")
  = Raise (AttributeError "object has no attribute 'get'").
Proof.
  eapply (extract_embedding_raises_on_other_shape Sample.json_loads
            ("```json" ++ nl ++ "null" ++ nl ++ "```") 0 "null" PNone);
    try reflexivity.
  left. reflexivity.
Defined.

(** The markdown of a complete document. *)
Lemma parse_ymj_markdown_is_stripped_witness : strip "body" = "body".
Proof.
  apply (parse_ymj_markdown_is_stripped Sample.yaml_safe_load Sample.json_loads
           (Sample.document "body" "1.0") Sample.header "body" (Sample.footer 1%float)).
  reflexivity.
Defined.

(** A complete document has no error and parses. *)
Lemma valid_file_parses_witness :
  exists d markdown footer,
    Tools.parse_ymj Sample.yaml_safe_load Sample.json_loads (Sample.document "body" "1.0")
    = Ok (PDict d, markdown, footer)
    /\ lookup "doc_type" d <> None
    /\ lookup "title" d <> None.
Proof.
  apply (valid_file_parses Sample.yaml_safe_load Sample.json_loads
           (Sample.world_of [("n.ymj", Sample.document "body" "1.0")]) (Sample.ymj "n") false
           (Sample.document "body" "1.0"));
    reflexivity.
Defined.

(** A complete document passes strict validation and is skipped. *)
Lemma strictly_valid_file_is_skipped_witness :
  let w := Sample.world_of [("n.ymj", Sample.document "body" "1.0")] in
  Tools.process_file Sample.yaml_safe_load Sample.yaml_dump Sample.json_loads
    Sample.json_dumps Sample.unit_provider (Sample.ymj "n") false false w
  = (Ok true,
     said (("Skipping " ++ "n.ymj" ++ " (already embedded, use --force to re-embed)") ++ nl) w).
Proof.
  cbv zeta.
  apply (strictly_valid_file_is_skipped Sample.yaml_safe_load Sample.yaml_dump
           Sample.json_loads Sample.json_dumps Sample.unit_provider
           (Sample.world_of [("n.ymj", Sample.document "body" "1.0")]) (Sample.ymj "n") false).
  reflexivity.
Defined.

(** A document without footer: no error by default, one in strict
    mode. *)
Lemma strict_mode_only_adds_witness :
  let text := "---" ++ nl ++ Sample.header_yaml ++ nl ++ "---" ++ nl ++ "body" in
  let w := Sample.world_of [("n.ymj", text)] in
  exists errors',
    Tools.validate_file Sample.yaml_safe_load Sample.json_loads w (Sample.ymj "n") true
    = Ok errors'
    /\ (errors' = [] \/ exists message, errors' = appended [] message).
Proof.
  cbv zeta.
  apply (strict_mode_only_adds Sample.yaml_safe_load Sample.json_loads
           (Sample.world_of
              [("n.ymj", "---" ++ nl ++ Sample.header_yaml ++ nl ++ "---" ++ nl ++ "body")])
           (Sample.ymj "n") []).
  reflexivity.
Defined.

(** A document without footer, embedded, then validated strictly. *)
Lemma embedded_file_validates_strictly_witness :
  let text := "---" ++ (nl ++ Sample.header_yaml ++ nl) ++ "---" ++ (nl ++ "body") in
  let w := Sample.world_of [("n.ymj", text)] in
  Tools.validate_file Sample.yaml_safe_load Sample.json_loads
    (snd (Tools.process_file Sample.yaml_safe_load Sample.yaml_dump Sample.json_loads
            Sample.json_dumps Sample.unit_provider (Sample.ymj "n") false false w))
    (Sample.ymj "n") true
  = Ok [].
Proof.
  cbv zeta.
  apply (embedded_file_validates_strictly Sample.yaml_safe_load Sample.yaml_dump
           Sample.json_loads Sample.json_dumps Sample.unit_provider
           (Sample.world_of
              [("n.ymj", "---" ++ (nl ++ Sample.header_yaml ++ nl) ++ "---" ++ (nl ++ "body"))])
           (Sample.ymj "n") false false
           ("---" ++ (nl ++ Sample.header_yaml ++ nl) ++ "---" ++ (nl ++ "body"))
           [ (PStr "doc_type", PStr "note"); (PStr "title", PStr "t") ]
           [ (PStr "doc_type", PStr "note"); (PStr "title", PStr "t") ]
           "body" PNone [1%float] Sample.header_yaml);
    try reflexivity; discriminate.
Defined.

(** A valid file and a file with another suffix: status 0. *)
Lemma validate_main_exit_status_witness :
  let w := Sample.world_of [("n.ymj", Sample.document "body" "1.0")] in
  let paths := [Sample.ymj "n"; mkPath "readme.md" "readme" ".md"] in
  let w' := snd (Tools.validate_main Sample.yaml_safe_load Sample.json_loads paths false w) in
  (0%Z = 0%Z \/ 0%Z = 1%Z)
  /\ (0%Z = 0%Z <->
      Forall (fun path => is_ymj path = true ->
                Tools.validate_file Sample.yaml_safe_load Sample.json_loads w path false = Ok [])
             paths)
  /\ files w' = files w.
Proof.
  cbv zeta.
  apply (validate_main_exit_status Sample.yaml_safe_load Sample.json_loads
           (Sample.world_of [("n.ymj", Sample.document "body" "1.0")])).
  reflexivity.
Defined.

(** A document whose footer holds a [null] embedding. *)
Lemma null_embedding_is_skipped_and_unranked_witness :
  let a := nl ++ Sample.header_yaml ++ nl in
  let x := nl ++ nl ++ "body" ++ nl ++ "```json" ++ nl ++ Sample2.null_footer_json
           ++ nl ++ "```" ++ nl in
  let w := Sample.world_of [("n.ymj", "---" ++ a ++ "---" ++ x)] in
  Tools.process_file Sample.yaml_safe_load Sample.yaml_dump Sample2.json_loads
    Sample.json_dumps Sample.unit_provider (Sample.ymj "n") false false w
  = (Ok true,
     said (("Skipping " ++ "n.ymj" ++ " (already embedded, use --force to re-embed)") ++ nl) w)
  /\ Tools.extract_embedding Sample2.json_loads ("---" ++ a ++ "---" ++ x) = Ok PNone.
Proof.
  cbv zeta.
  eapply (null_embedding_is_skipped_and_unranked Sample.yaml_safe_load Sample.yaml_dump
            Sample2.json_loads Sample.json_dumps Sample.unit_provider
            (Sample.world_of
               [("n.ymj",
                 "---" ++ (nl ++ Sample.header_yaml ++ nl) ++ "---"
                 ++ (nl ++ nl ++ "body" ++ nl ++ "```json" ++ nl ++ Sample2.null_footer_json
                     ++ nl ++ "```" ++ nl))])
            (Sample.ymj "n") false
            (nl ++ Sample.header_yaml ++ nl)
            (nl ++ nl ++ "body" ++ nl ++ "```json" ++ nl ++ Sample2.null_footer_json
             ++ nl ++ "```" ++ nl));
    reflexivity.
Defined.
